(** * Nox sessions of haapi.games.rawg: a shallow embedding of [noxfile.py]

    The development follows the source file.

    - [Text]: the [str] operations the file uses ([lower], [in],
      [startswith], [endswith], [splitlines], [join], [repr], slicing,
      [textwrap.dedent]).  Text is a string of code points below 256
      (Latin-1); characters outside that range are not modelled.
    - [Fs]: the part of the filesystem the sessions touch, as a finite map
      from paths (lists of components) to nodes.  A file holds the text
      that [read_text] returns; files that do not decode as text, and
      links, are not modelled.
    - [Nox]: the world the sessions run in (the filesystem and a log of
      the steps taken, each with the filesystem it was taken in), a
      state-and-exception monad over it, the helper
      [activate_virtualenv_in_precommit_hooks] and the sessions
      [precommit], [mypy], [tests], [coverage], [typeguard], [xdoctest],
      [docs_build] and [docs].
      What [session.install] and [session.run] do is left to the host:
      an arbitrary function from the command and the filesystem to a
      new filesystem and a success flag.
    - [Facts]: the notions the properties are stated with.
    - [Examples]: concrete hosts, sessions and checkouts.

    The lemmas and theorems follow: text, filesystem, the helper, the
    sessions, and the properties on concrete runs.
*)

From Stdlib Require Import Ascii String.
From stdpp Require Import base option list strings gmap fin_maps.

(* ===================================================================== *)
(** * Text *)
(* ===================================================================== *)

Module Text.

Definition code (c : ascii) : nat := nat_of_ascii c.

Definition newline : ascii := "010"%char.
Definition dquote : ascii := "034"%char.
Definition squote : ascii := "039"%char.
Definition backslash : ascii := "092"%char.

Definition str (c : ascii) : string := String c "".

(** [str.lower()] on Latin-1: [A-Z] and [À-Þ] (without the multiplication
    sign, code 215) move 32 places up; every other character is kept. *)
Definition lower_char (c : ascii) : ascii :=
  let n := code c in
  if ((65 <=? n) && (n <=? 90)) || ((192 <=? n) && (n <=? 222) && negb (n =? 215))
  then ascii_of_nat (n + 32)
  else c.

Fixpoint lower (s : string) : string :=
  match s with
  | "" => ""
  | String c tl => String (lower_char c) (lower tl)
  end.

(** [s.startswith(p)] *)
Fixpoint startswith (s p : string) : bool :=
  match p, s with
  | "", _ => true
  | String a p', String b s' => Ascii.eqb a b && startswith s' p'
  | String _ _, "" => false
  end.

(** [needle in hay] *)
Fixpoint contains (needle hay : string) : bool :=
  startswith hay needle ||
  match hay with
  | "" => false
  | String _ tl => contains needle tl
  end.

Fixpoint skip (n : nat) (s : string) : string :=
  match n, s with
  | 0, _ => s
  | S n', String _ tl => skip n' tl
  | S _, "" => ""
  end.

(** [s.endswith(p)]: the last [len(p)] characters of [s] are [p]. *)
Definition endswith (s p : string) : bool :=
  (String.length p <=? String.length s) &&
  String.eqb (skip (String.length s - String.length p) s) p.

(** [s[1:-1]] *)
Definition slice_1_m1 (s : string) : string :=
  String.substring 1 (String.length s - 2) s.

(** [sep.join(parts)] *)
Fixpoint join (sep : string) (parts : list string) : string :=
  match parts with
  | [] => ""
  | [p] => p
  | p :: rest => p +:+ sep +:+ join sep rest
  end.

(** Line boundaries of [str.splitlines] below code 256: LF, CR (and CR LF
    as one), VT, FF, FS, GS, RS and NEL. *)
Definition is_linebreak (c : ascii) : bool :=
  let n := code c in
  (n =? 10) || (n =? 13) || (n =? 11) || (n =? 12) ||
  (n =? 28) || (n =? 29) || (n =? 30) || (n =? 133).

(** [s.splitlines()]: the lines without their terminators; the empty text
    has no line, and a terminator at the very end opens no further line. *)
Fixpoint splitlines (s : string) : list string :=
  match s with
  | "" => []
  | String c tl =>
      if is_linebreak c then
        match tl with
        | String c2 tl2 =>
            if (code c =? 13) && (code c2 =? 10)
            then "" :: splitlines tl2
            else "" :: splitlines tl
        | "" => "" :: splitlines tl
        end
      else
        match splitlines tl with
        | [] => [str c]
        | l :: ls => String c l :: ls
        end
  end.

(** ** [repr] of a [str] *)

Definition hex_digit (n : nat) : ascii :=
  match String.get n "0123456789abcdef" with
  | Some c => c
  | None => "0"%char
  end.

Definition hex_escape (n : nat) : string :=
  String backslash (String "x"%char
    (String (hex_digit (n / 16)) (String (hex_digit (n mod 16)) ""))).

(** Printable code points of the upper Latin-1 half: all from 161 on
    except the soft hyphen (173). *)
Definition printable_high (n : nat) : bool :=
  (161 <=? n) && negb (n =? 173).

Definition repr_char (quote c : ascii) : string :=
  let n := code c in
  if Ascii.eqb c quote || Ascii.eqb c backslash then String backslash (str c)
  else if n =? 9 then String backslash "t"
  else if n =? 10 then String backslash "n"
  else if n =? 13 then String backslash "r"
  else if (n <? 32) || (n =? 127) then hex_escape n
  else if n <? 127 then str c
  else if printable_high n then str c
  else hex_escape n.

Fixpoint repr_body (quote : ascii) (s : string) : string :=
  match s with
  | "" => ""
  | String c tl => repr_char quote c +:+ repr_body quote tl
  end.

(** Double quotes are chosen when the text has a single quote and no
    double quote; single quotes otherwise. *)
Definition repr_quote (s : string) : ascii :=
  if contains (str squote) s && negb (contains (str dquote) s)
  then dquote else squote.

Definition repr (s : string) : string :=
  let q := repr_quote s in
  String q (repr_body q s +:+ str q).

(** ** [textwrap.dedent] *)

(** The lines of a text for the multi-line regular expressions of
    [dedent]: only LF separates, and [join newline] restores the text. *)
Fixpoint split_nl (s : string) : list string :=
  match s with
  | "" => [""]
  | String c tl =>
      if Ascii.eqb c newline then "" :: split_nl tl
      else match split_nl tl with
           | [] => [str c]
           | l :: ls => String c l :: ls
           end
  end.

Definition is_blank (c : ascii) : bool := (code c =? 32) || (code c =? 9).

Fixpoint all_blank (s : string) : bool :=
  match s with
  | "" => true
  | String c tl => is_blank c && all_blank tl
  end.

(** Leading run of spaces and tabs. *)
Fixpoint indent_of (s : string) : string :=
  match s with
  | "" => ""
  | String c tl => if is_blank c then String c (indent_of tl) else ""
  end.

Fixpoint common_prefix (a b : string) : string :=
  match a, b with
  | String x a', String y b' =>
      if Ascii.eqb x y then String x (common_prefix a' b') else ""
  | _, _ => ""
  end.

(** The margin: the longest common leading whitespace of the lines that
    have a non-blank character ([None] when there is no such line). *)
Fixpoint margin_of (lines : list string) : option string :=
  match lines with
  | [] => None
  | l :: rest =>
      if all_blank l then margin_of rest
      else match margin_of rest with
           | None => Some (indent_of l)
           | Some m => Some (common_prefix (indent_of l) m)
           end
  end.

Definition strip_margin (m l : string) : string :=
  if startswith l m then skip (String.length m) l else l.

Definition dedent (text : string) : string :=
  let lines := (λ l, if all_blank l then "" else l) <$> split_nl text in
  match margin_of lines with
  | None => join (str newline) lines
  | Some m => join (str newline) (strip_margin m <$> lines)
  end.

(** ** [str.replace] *)

(** Scanning from the left; [skipping] counts the characters of a match
    that are still to be dropped. *)
Fixpoint replace_from (old new : string) (skipping : nat) (s : string) : string :=
  match s with
  | "" => ""
  | String c tl =>
      match skipping with
      | S k => replace_from old new k tl
      | 0 =>
          if startswith s old
          then new +:+ replace_from old new (String.length old - 1) tl
          else String c (replace_from old new 0 tl)
      end
  end.

(** With an empty [old], [new] goes in front of every character and at
    the end. *)
Fixpoint replace_empty (new : string) (s : string) : string :=
  match s with
  | "" => new
  | String c tl => new +:+ String c (replace_empty new tl)
  end.

(** [s.replace(old, new)] *)
Definition replace (s old new : string) : string :=
  match old with
  | "" => replace_empty new s
  | _ => replace_from old new 0 s
  end.

End Text.

(* ===================================================================== *)
(** * Filesystem *)
(* ===================================================================== *)

Module Fs.

(** A path is the list of its components, as [pathlib] keeps it in
    [Path.parts]; [[]] is the working directory ([Path()]). *)
Definition path : Type := list string.

(** What a path leads to.  A file holds its text as [read_text] returns
    it and as [write_text] is given it.  [Other] stands for what exists
    and is neither a regular file nor a directory.  Links are not
    modelled. *)
Inductive node : Type :=
  | File (text : string)
  | Dir
  | Other.

#[global] Instance node_eq_dec : EqDecision node.
Proof. solve_decision. Defined.

Abbreviation filesystem := (gmap path node).

(** Components of a relative path text, split at [/]. *)
Fixpoint parts_from (cur : string) (s : string) : list string :=
  match s with
  | "" => [String.rev cur]
  | String c tl =>
      if Ascii.eqb c "/"%char then String.rev cur :: parts_from "" tl
      else parts_from (String c cur) tl
  end.

(** [Path(s)] for a relative [s]: empty and [.] components vanish. *)
Definition Path (s : string) : path :=
  filter (λ c, c ≠ "" ∧ c ≠ ".") (parts_from "" s).

(** [p / name] *)
Definition child (p : path) (name : string) : path := p ++ [name].

Definition exists_ (f : filesystem) (p : path) : bool :=
  match f !! p with Some _ => true | None => false end.

Definition is_dir (f : filesystem) (p : path) : bool :=
  match f !! p with Some Dir => true | _ => false end.

Definition is_file (f : filesystem) (p : path) : bool :=
  match f !! p with Some (File _) => true | _ => false end.

(** The name under which [k] is an entry of the directory [d], if it is. *)
Fixpoint child_name (d k : path) : option string :=
  match d, k with
  | [], [n] => Some n
  | x :: d', y :: k' => if decide (x = y) then child_name d' k' else None
  | _, _ => None
  end.

(** [d.iterdir()]: the names of the entries of [d], each once, in the
    order the map enumerates them (the real order is unspecified too). *)
Definition iterdir (f : filesystem) (d : path) : list string :=
  omap (λ kv, child_name d kv.1) (map_to_list f).

(** [shutil.rmtree] removes [p] and everything below it. *)
Definition remove_tree (f : filesystem) (p : path) : filesystem :=
  filter (λ kv, ¬ p `prefix_of` kv.1) f.

(** A name matches the pattern [.coverage.*] when it starts with
    [.coverage.]; where paths ignore case, so does the match. *)
Definition matches_coverage_data (ignore_case : bool) (name : string) : bool :=
  Text.startswith (if ignore_case then Text.lower name else name) ".coverage.".

(** [any(Path().glob(".coverage.*"))] *)
Definition any_coverage_data (ignore_case : bool) (f : filesystem) : bool :=
  existsb (matches_coverage_data ignore_case) (iterdir f []).

End Fs.

(* ===================================================================== *)
(** * Sessions *)
(* ===================================================================== *)

Module Nox.
Import Text Fs.

(** ** The world *)

(** What a session asks of an external tool. *)
Inductive action : Type :=
  | Install (pkgs : list string)      (* session.install(...) *)
  | Run (cmd : list string).          (* session.run(...) *)

(** The steps a session takes. *)
Inductive event : Type :=
  | Called (a : action)
  | Notified (name : string)          (* session.notify(name) *)
  | RemovedTree (p : path)            (* shutil.rmtree(p) *)
  | ReadText (p : path)               (* p.read_text() *)
  | WroteText (p : path) (t : string) (* p.write_text(t) *).

(** The filesystem and the log of steps; every step is logged with the
    filesystem it was taken in. *)
Record world : Type := World {
  fs : filesystem;
  log : list (event * filesystem)
}.

Inductive exn : Type :=
  | CommandFailed
  | IndexError
  | OSError.

Inductive outcome (A : Type) : Type :=
  | Ok (a : A)
  | Raised (e : exn).
Arguments Ok {A} a.
Arguments Raised {A} e.

(** State and exceptions. *)
Definition M (A : Type) : Type := world → outcome A * world.

Definition ret {A} (a : A) : M A := λ w, (Ok a, w).

Definition bind {A B} (m : M A) (k : A → M B) : M B :=
  λ w, match m w with
       | (Ok a, w') => k a w'
       | (Raised e, w') => (Raised e, w')
       end.

Definition raise {A} (e : exn) : M A := λ w, (Raised e, w).

Notation "x <- m ;; k" := (bind m (λ x, k))
  (at level 100, m at next level, right associativity).
Notation "m ;; k" := (bind m (λ _, k))
  (at level 100, right associativity).

(** [try: body finally: final].  The final block always runs; what the
    body raised is raised again after it, unless the final block raises
    itself. *)
Definition try_finally {A} (body : M A) (final : M unit) : M A :=
  λ w, match body w with
       | (r, w1) =>
           match final w1 with
           | (Ok _, w2) => (r, w2)
           | (Raised e, w2) => (Raised e, w2)
           end
       end.

(** [for x in xs: body(x)] *)
Fixpoint for_each {A} (xs : list A) (body : A → M unit) : M unit :=
  match xs with
  | [] => ret tt
  | x :: rest => body x ;; for_each rest body
  end.

Definition get_fs : M filesystem := λ w, (Ok (fs w), w).

Definition emit (e : event) : M unit :=
  λ w, (Ok tt, World (fs w) (log w ++ [(e, fs w)])).

Definition put_fs (f : filesystem) : M unit :=
  λ w, (Ok tt, World f (log w)).

(** The session object, as far as the sessions read it. *)
Record Session : Type := {
  posargs : list string;          (* session.posargs *)
  bin : option string;            (* session.bin *)
  env : gmap string string;       (* session.env *)
  interactive : bool;             (* session.interactive *)
  manifest_len : nat              (* len(session._runner.manifest) *)
}.

(** The machine the sessions run on: whether paths compare without
    regard to case ([Path("A") == Path("a")]), and what the external
    tools do to the filesystem and whether they succeed. *)
Record host : Type := {
  path_ignores_case : bool;
  tool : action → filesystem → filesystem * bool
}.

(** [x or default] on lists *)
Definition or_default (x default : list string) : list string :=
  match x with [] => default | _ => x end.

Definition truthy {A} (l : list A) : bool :=
  match l with [] => false | _ => true end.

(** [l.insert(i, x)] for [i >= 0] *)
Definition insert_at {A} (i : nat) (x : A) (l : list A) : list A :=
  take i l ++ x :: drop i l.

(** ** Module constants *)

Definition package : string := "haapi.games.rawg".
Definition pytest_deps : list string :=
  ["pytest"; "pygments"; "aioresponses"; "pytest-mock"; "pytest-datadir";
   "pytest-asyncio"].
Definition base_docs_path : string := "docs".
Definition docs_build_path : string := base_docs_path +:+ "/_build".

Section Sessions.
Variable h : host.

Definition call (a : action) : M unit :=
  emit (Called a) ;;
  f <- get_fs ;;
  let '(f', ok) := tool h a f in
  put_fs f' ;;
  if ok then ret tt else raise CommandFailed.

Definition session_install (pkgs : list string) : M unit := call (Install pkgs).
Definition session_run (cmd : list string) : M unit := call (Run cmd).
Definition session_notify (name : string) : M unit := emit (Notified name).

Definition read_text (p : path) : M string :=
  emit (ReadText p) ;;
  f <- get_fs ;;
  match f !! p with
  | Some (File t) => ret t
  | _ => raise OSError
  end.

Definition write_text (p : path) (t : string) : M unit :=
  emit (WroteText p t) ;;
  f <- get_fs ;;
  put_fs (<[p := File t]> f).

Definition rmtree (p : path) : M unit :=
  emit (RemovedTree p) ;;
  f <- get_fs ;;
  if is_dir f p then put_fs (remove_tree f p) else raise OSError.

(** ** [activate_virtualenv_in_precommit_hooks] *)

Definition hookdir : path := child (Path ".git") "hooks".

(** The f-string handed to [dedent]. *)
Definition header_template (virtualenv sbin : string) : string :=
  "            import os" +:+ str newline +:+
  "            os.environ[" +:+ str dquote +:+ "VIRTUAL_ENV" +:+ str dquote +:+
    "] = " +:+ repr virtualenv +:+ str newline +:+
  "            os.environ[" +:+ str dquote +:+ "PATH" +:+ str dquote +:+
    "] = os.pathsep.join((" +:+ str newline +:+
  "                " +:+ repr sbin +:+ "," +:+ str newline +:+
  "                os.environ.get(" +:+ str dquote +:+ "PATH" +:+ str dquote +:+
    ", " +:+ str dquote +:+ str dquote +:+ ")," +:+ str newline +:+
  "            ))" +:+ str newline +:+
  "            ".

Definition header (virtualenv sbin : string) : string :=
  dedent (header_template virtualenv sbin).

(** The condition of lines 65-67, with Python's precedence:
    [(Path("A") == Path("a") and bindir.lower() in text.lower()) or
     bindir in text]. *)
Definition hook_mentions (bindir text : string) : bool :=
  (path_ignores_case h && contains (lower bindir) (lower text))
  || contains bindir text.

Definition is_python_shebang (line : string) : bool :=
  startswith line "#!" && contains "python" (lower line).

(** The body of the loop over the hooks. *)
Definition patch_hook (virtualenv sbin name : string) : M unit :=
  let hook := child hookdir name in
  f <- get_fs ;;
  if endswith name ".sample" || negb (is_file f hook) then ret tt else
  text <- read_text hook ;;
  let bindir := slice_1_m1 (repr sbin) in
  if negb (hook_mentions bindir text) then ret tt else
  let lines := splitlines text in
  match lines with
  | [] => raise IndexError
  | first :: _ =>
      if negb (is_python_shebang first) then ret tt else
      write_text hook (join (str newline) (insert_at 1 (header virtualenv sbin) lines))
  end.

Definition activate_virtualenv_in_precommit_hooks (s : Session) : M unit :=
  match bin s with
  | None => ret tt
  | Some sbin =>
      match env s !! "VIRTUAL_ENV" with
      | None => ret tt
      | Some virtualenv =>
          f <- get_fs ;;
          if negb (is_dir f hookdir) then ret tt else
          for_each (iterdir f hookdir) (patch_hook virtualenv sbin)
      end
  end.

(** ** [precommit] *)

Definition precommit (s : Session) : M unit :=
  let args := or_default (posargs s) ["run"; "--all-files"; "--show-diff-on-failure"] in
  session_install
    ["black"; "darglint"; "flake8"; "flake8-bandit"; "flake8-bugbear";
     "flake8-docstrings"; "flake8-rst-docstrings"; "pep8-naming";
     "pre-commit"; "pre-commit-hooks"; "reorder-python-imports"] ;;
  session_run ("pre-commit" :: args) ;;
  match args with
  | a0 :: _ =>
      if String.eqb a0 "install"
      then activate_virtualenv_in_precommit_hooks s
      else ret tt
  | [] => ret tt
  end.

(** ** [tests] *)

Definition tests (s : Session) : M unit :=
  session_install ["."] ;;
  session_install ["coverage[toml]"] ;;
  session_install pytest_deps ;;
  try_finally
    (session_run (["coverage"; "run"; "--parallel"; "-m"; "pytest"] ++ posargs s))
    (if interactive s then session_notify "coverage" else ret tt).

(** ** [coverage] *)

Definition has_args (s : Session) : bool :=
  truthy (posargs s) && (manifest_len s =? 1).

Definition coverage (s : Session) : M unit :=
  let args := if has_args s then posargs s else ["report"] in
  session_install ["coverage[toml]"] ;;
  f <- get_fs ;;
  (if negb (has_args s) && any_coverage_data (path_ignores_case h) f
   then session_run ["coverage"; "combine"]
   else ret tt) ;;
  session_run ("coverage" :: args).

(** ** [docs_build] and [docs] *)

Definition build_dir : path := Path docs_build_path.

Definition clean_build_dir : M unit :=
  f <- get_fs ;;
  if exists_ f build_dir then rmtree build_dir else ret tt.

Definition docs_build (s : Session) : M unit :=
  let args := or_default (posargs s) [base_docs_path; docs_build_path] in
  session_install ["."] ;;
  session_install ["sphinx"; "sphinx-rtd-theme"] ;;
  clean_build_dir ;;
  session_run ["sphinx-apidoc"; "-o"; base_docs_path; "-fTPM";
               "--implicit-namespaces"; "src/haapi"] ;;
  session_run ("sphinx-build" :: args).

Definition docs (s : Session) : M unit :=
  let args := or_default (posargs s) ["--open-browser"; base_docs_path; docs_build_path] in
  session_install ["."] ;;
  session_install ["sphinx"; "sphinx-autobuild"; "sphinx-rtd-theme"] ;;
  clean_build_dir ;;
  session_run ("sphinx-autobuild" :: args).

(** ** [mypy] *)

(** [sys_executable] is [sys.executable] of the process that runs nox. *)
Definition mypy (sys_executable : string) (s : Session) : M unit :=
  let args := or_default (posargs s)
                ["--explicit-package-bases"; "src/haapi/games"; "tests"; "docs/conf.py"] in
  session_install ["."] ;;
  session_install ["mypy"; "pytest"; "pytest-mock"] ;;
  session_run ("mypy" :: args) ;;
  if negb (truthy (posargs s))
  then session_run ["mypy"; "--python-executable=" +:+ sys_executable; "noxfile.py"]
  else ret tt.

(** ** [typeguard] *)

Definition typeguard (s : Session) : M unit :=
  session_install ["."] ;;
  session_install ["typeguard"] ;;
  session_install pytest_deps ;;
  session_run ("pytest" :: ("--typeguard-packages=" +:+ package) :: posargs s).

(** ** [xdoctest] *)

Definition xdoctest (s : Session) : M unit :=
  let args := or_default (posargs s) ["all"] in
  session_install ["."] ;;
  session_install ["xdoctest[colors]"] ;;
  session_run ("python" :: "-m" :: "xdoctest" ::
               ("src/" +:+ replace package "." "/") :: args).

End Sessions.

(** Running a session from a filesystem, with an empty log. *)
Definition start (f : filesystem) : world := World f [].

End Nox.

(* ===================================================================== *)
(** * Notions used to state the properties *)
(* ===================================================================== *)

Module Facts.
Import Text Fs Nox.

(** ** Logs *)

(** A step together with the filesystem it is taken in. *)
Definition stamp (f : filesystem) (e : event) : event * filesystem := (e, f).

(** The steps logged between the world [w] and a later world [w']. *)
Definition added (w w' : world) : list (event * filesystem) :=
  drop (length (log w)) (log w').

(** The path a step reads, writes or removes. *)
Definition touches (e : event) : option path :=
  match e with
  | ReadText p | WroteText p _ | RemovedTree p => Some p
  | Called _ | Notified _ => None
  end.

(** A logged step is about the path [q]. *)
Definition about (q : path) (x : event * filesystem) : Prop :=
  touches x.1 = Some q.

#[global] Instance about_dec q x : Decision (about q x).
Proof. unfold about. apply _. Defined.

(** A step that reads, writes or removes a path (and is no tool call). *)
Definition file_step (x : event * filesystem) : Prop :=
  is_Some (touches x.1).

(** The commands a log records as run, in order. *)
Definition commands_run (l : list (event * filesystem)) : list (list string) :=
  omap (λ x, match x.1 with Called (Run cmd) => Some cmd | _ => None end) l.

(** ** Hooks *)

(** What the loop body does with one entry of the hooks directory, read
    off the entry alone. *)
Inductive verdict : Type :=
  | Skipped                 (* [continue] before the file is read *)
  | ReadOnly                (* read, then [continue] *)
  | Crashed                 (* read, then [lines[0]] is out of range *)
  | Patched (new : string)  (* read and written back *).

#[global] Instance verdict_eq_dec : EqDecision verdict.
Proof. solve_decision. Defined.

Definition hook_verdict (h : host) (virtualenv sbin name : string)
    (entry : option node) : verdict :=
  if endswith name ".sample" then Skipped else
  match entry with
  | Some (File text) =>
      if negb (hook_mentions h (slice_1_m1 (repr sbin)) text) then ReadOnly else
      match splitlines text with
      | [] => Crashed
      | first :: rest =>
          if is_python_shebang first
          then Patched (join (str newline) (first :: header virtualenv sbin :: rest))
          else ReadOnly
      end
  | _ => Skipped
  end.

Definition verdict_events (q : path) (vd : verdict) : list event :=
  match vd with
  | Skipped => []
  | ReadOnly | Crashed => [ReadText q]
  | Patched new => [ReadText q; WroteText q new]
  end.

Definition verdict_node (vd : verdict) (old : option node) : option node :=
  match vd with
  | Patched new => Some (File new)
  | _ => old
  end.

Definition verdict_fs (q : path) (vd : verdict) (f : filesystem) : filesystem :=
  match vd with
  | Patched new => <[q := File new]> f
  | _ => f
  end.

Definition verdict_outcome (vd : verdict) : outcome unit :=
  match vd with
  | Crashed => Raised IndexError
  | _ => Ok tt
  end.

(** The first line of a text is a Python shebang. *)
Definition python_script (text : string) : bool :=
  match splitlines text with
  | first :: _ => is_python_shebang first
  | [] => false
  end.

(** No character of [s] is [c]. *)
Fixpoint free_of (c : ascii) (s : string) : bool :=
  match s with
  | "" => true
  | String a tl => negb (Ascii.eqb a c) && free_of c tl
  end.

(** The header as it is written into a hook: it sets [VIRTUAL_ENV] to the
    virtual environment and puts the bin directory in front of [PATH]. *)
Definition header_text (virtualenv sbin : string) : string :=
  "import os" +:+ str newline +:+
  "os.environ[" +:+ str dquote +:+ "VIRTUAL_ENV" +:+ str dquote +:+ "] = " +:+
    repr virtualenv +:+ str newline +:+
  "os.environ[" +:+ str dquote +:+ "PATH" +:+ str dquote +:+
    "] = os.pathsep.join((" +:+ str newline +:+
  "    " +:+ repr sbin +:+ "," +:+ str newline +:+
  "    os.environ.get(" +:+ str dquote +:+ "PATH" +:+ str dquote +:+ ", " +:+
    str dquote +:+ str dquote +:+ ")," +:+ str newline +:+
  "))" +:+ str newline.

(** A character that [repr] leaves as it is, whatever the quote. *)
Definition plain_char (c : ascii) : bool :=
  (32 <=? code c) && (code c <? 127) &&
  negb (Ascii.eqb c squote) && negb (Ascii.eqb c dquote) &&
  negb (Ascii.eqb c backslash).

Fixpoint plain (s : string) : bool :=
  match s with
  | "" => true
  | String c tl => plain_char c && plain tl
  end.

(** ** Commands of the sessions *)

(** What the pre-commit session installs. *)
Definition precommit_packages : list string :=
  ["black"; "darglint"; "flake8"; "flake8-bandit"; "flake8-bugbear";
   "flake8-docstrings"; "flake8-rst-docstrings"; "pep8-naming";
   "pre-commit"; "pre-commit-hooks"; "reorder-python-imports"].

(** The command of the pre-commit session. *)
Definition precommit_command (s : Session) : list string :=
  "pre-commit" :: or_default (posargs s) ["run"; "--all-files"; "--show-diff-on-failure"].

(** The command of the test session. *)
Definition test_command (s : Session) : list string :=
  ["coverage"; "run"; "--parallel"; "-m"; "pytest"] ++ posargs s.

Definition apidoc_command : list string :=
  ["sphinx-apidoc"; "-o"; base_docs_path; "-fTPM"; "--implicit-namespaces";
   "src/haapi"].

(** The coverage commands as the specification words them: the caller's
    arguments when there are some and the session is the only one;
    otherwise [report], after [combine] when there is coverage data. *)
Definition coverage_plan (args : list string) (sole data : bool) : list (list string) :=
  if truthy args && sole then ["coverage" :: args]
  else if data then [["coverage"; "combine"]; ["coverage"; "report"]]
  else [["coverage"; "report"]].

(** ** Documentation *)

(** The documentation tools. *)
Definition doc_command (cmd : list string) : bool :=
  match cmd with
  | c :: _ =>
      String.eqb c "sphinx-apidoc" || String.eqb c "sphinx-build"
      || String.eqb c "sphinx-autobuild"
  | [] => false
  end.

Definition doc_step (x : event * filesystem) : bool :=
  match x.1 with
  | Called (Run cmd) => doc_command cmd
  | _ => false
  end.

(** The build directory is absent when the documentation tools start:
    - the first documentation command is run in a filesystem without it;
    - if installing packages leaves it alone and it is there when the
      session starts, [shutil.rmtree] is logged before any documentation
      command, in a filesystem that still has it;
    - if [sphinx-apidoc] does not create it, every documentation command
      is run in a filesystem without it. *)
Definition absent_before_docs (h : host) (f : filesystem)
    (l : list (event * filesystem)) : Prop :=
  (∀ pre x post,
     l = pre ++ x :: post → doc_step x = true →
     Forall (λ y, doc_step y = false) pre →
     x.2 !! build_dir = None) ∧
  ((∀ pkgs fx, (tool h (Install pkgs) fx).1 !! build_dir = fx !! build_dir) →
   is_Some (f !! build_dir) →
   ∀ pre x post,
     l = pre ++ x :: post → doc_step x = true →
     ∃ fr, (RemovedTree build_dir, fr) ∈ pre ∧ fr !! build_dir = f !! build_dir) ∧
  ((∀ fx, fx !! build_dir = None →
          (tool h (Run apidoc_command) fx).1 !! build_dir = None) →
   ∀ pre x post,
     l = pre ++ x :: post → doc_step x = true →
     x.2 !! build_dir = None).

(** The documentation commands of the two sessions. *)
Definition docs_build_commands (s : Session) : list (list string) :=
  [apidoc_command;
   "sphinx-build" :: or_default (posargs s) [base_docs_path; docs_build_path]].

Definition docs_commands (s : Session) : list (list string) :=
  ["sphinx-autobuild"
   :: or_default (posargs s) ["--open-browser"; base_docs_path; docs_build_path]].

(** The steps of running the commands [cmds] one after the other from
    the filesystem [g]: each is logged with the filesystem the one
    before it left, and none is run after one that failed. *)
Fixpoint run_steps (h : host) (cmds : list (list string)) (g : filesystem)
    : list (event * filesystem) :=
  match cmds with
  | [] => []
  | c :: cs =>
      (Called (Run c), g)
      :: (if (tool h (Run c) g).2 then run_steps h cs (tool h (Run c) g).1 else [])
  end.

(** The build directory is removed, then the documentation tools are
    run.  [g] is the filesystem that installing the packages leaves and
    [d] the steps logged from there on:
    - with nothing at [docs/_build], the commands [cmds] are run from
      [g];
    - with a directory there, [shutil.rmtree] is logged in [g] and the
      commands are run from [g] without the tree at [docs/_build];
    - with anything else there, [shutil.rmtree] is logged and fails, and
      no command is run. *)
Definition removed_then_docs (h : host) (g : filesystem)
    (cmds : list (list string)) (d : list (event * filesystem)) : Prop :=
  match g !! build_dir with
  | None => d = run_steps h cmds g
  | Some Dir =>
      d = (RemovedTree build_dir, g) :: run_steps h cmds (remove_tree g build_dir)
  | Some _ => d = [(RemovedTree build_dir, g)]
  end.

(** ** Further notions *)

(** No character of [s] is a line boundary of [splitlines]. *)
Fixpoint linefree (s : string) : bool :=
  match s with
  | "" => true
  | String c tl => negb (is_linebreak c) && linefree tl
  end.

(** A logged step is a tool call. *)
Definition is_call (x : event * filesystem) : Prop :=
  ∃ a, x.1 = Called a.

(** A logged step is a tool call that failed in the filesystem it was
    made in. *)
Definition failed_call (h : host) (x : event * filesystem) : Prop :=
  ∃ a, x.1 = Called a ∧ (tool h a x.2).2 = false.

(** The computation only adds to the log; a failed tool call is the last
    tool call and makes the computation raise [CommandFailed], which is
    raised for no other reason. *)
Definition stops_at_failure (h : host) {A} (m : M A) : Prop :=
  ∀ w, ∃ d,
    log (m w).2 = log w ++ d ∧
    (∀ pre x post,
       d = pre ++ x :: post → failed_call h x →
       (m w).1 = Raised CommandFailed ∧ ∀ y, y ∈ post → ¬ is_call y) ∧
    ((m w).1 = Raised CommandFailed → ∃ x, x ∈ d ∧ failed_call h x).

(** The computation only adds to the log, and only steps in [P]. *)
Definition steps_only (P : event → Prop) {A} (m : M A) : Prop :=
  ∀ w, ∃ d, log (m w).2 = log w ++ d ∧ ∀ x, x ∈ d → P x.1.

(** A step that is a tool call or a notification. *)
Definition tool_or_notify (e : event) : Prop := touches e = None.

(** A tool call (no notification, no file step). *)
Definition tool_step (e : event) : Prop := ∃ a, e = Called a.

(** A tool call or the removal of the build directory. *)
Definition docs_step_kind (e : event) : Prop :=
  (∃ a, e = Called a) ∨ e = RemovedTree build_dir.

(** A tool call, or the reading or writing of an entry of [.git/hooks]. *)
Definition precommit_step_kind (e : event) : Prop :=
  (∃ a, e = Called a) ∨
  (∃ n, e = ReadText (child hookdir n)) ∨
  (∃ n t, e = WroteText (child hookdir n) t).

(** The six lines of the header. *)
Definition header_lines (virtualenv sbin : string) : list string :=
  [ "import os";
    "os.environ[" +:+ str dquote +:+ "VIRTUAL_ENV" +:+ str dquote +:+ "] = " +:+
      repr virtualenv;
    "os.environ[" +:+ str dquote +:+ "PATH" +:+ str dquote +:+
      "] = os.pathsep.join((";
    "    " +:+ repr sbin +:+ ",";
    "    os.environ.get(" +:+ str dquote +:+ "PATH" +:+ str dquote +:+ ", " +:+
      str dquote +:+ str dquote +:+ "),";
    "))" ].

(** The lines that follow the header in a patched hook: none when the
    hook had only its first line, else an empty line and the other lines
    of the hook (without a last line that is empty). *)
Definition lines_after_header (rest : list string) : list string :=
  match rest with
  | [] => []
  | _ => "" :: match last rest with
               | Some "" => removelast rest
               | _ => rest
               end
  end.

End Facts.

(* ===================================================================== *)
(** * Concrete hosts, sessions and filesystems *)
(* ===================================================================== *)

Module Examples.
Import Text Fs Nox Facts.

(** Every tool succeeds and leaves the filesystem alone. *)
Definition quiet (a : action) (f : filesystem) : filesystem * bool := (f, true).

(** Installing succeeds, running a command fails. *)
Definition failing_runs (a : action) (f : filesystem) : filesystem * bool :=
  match a with
  | Install _ => (f, true)
  | Run _ => (f, false)
  end.

Definition posix_host : host :=
  {| path_ignores_case := false; tool := quiet |}.
Definition nocase_host : host :=
  {| path_ignores_case := true; tool := quiet |}.
Definition failing_host : host :=
  {| path_ignores_case := false; tool := failing_runs |}.

(** [nox -s pre-commit -- install] without a terminal. *)
Definition install_session : Session :=
  {| posargs := ["install"];
     bin := Some "/v/bin";
     env := {["VIRTUAL_ENV" := "/v"]};
     interactive := false;
     manifest_len := 1 |}.

(** The same with a terminal and no arguments. *)
Definition plain_session : Session :=
  {| posargs := [];
     bin := Some "/v/bin";
     env := {["VIRTUAL_ENV" := "/v"]};
     interactive := true;
     manifest_len := 3 |}.

(** A session without a virtual environment. *)
Definition bare_session : Session :=
  {| posargs := ["install"];
     bin := None;
     env := ∅;
     interactive := true;
     manifest_len := 1 |}.

(** A session whose bin directory is the empty text. *)
Definition empty_bin_session : Session :=
  {| posargs := ["install"];
     bin := Some "";
     env := {["VIRTUAL_ENV" := "/v"]};
     interactive := true;
     manifest_len := 1 |}.

Definition hook_text : string :=
  "#!/usr/bin/env python3" +:+ str newline +:+
  "INSTALL_PYTHON = '/v/bin/python'" +:+ str newline +:+
  "main()" +:+ str newline.

Definition shouting_hook_text : string :=
  "#!/usr/bin/env python3" +:+ str newline +:+
  "INSTALL_PYTHON = '/V/BIN/python'" +:+ str newline.

Definition shell_hook_text : string :=
  "#!/bin/sh" +:+ str newline +:+
  "exec /v/bin/python -m pre_commit" +:+ str newline.

Definition pre_commit_hook : path := [".git"; "hooks"; "pre-commit"].
Definition pre_push_hook : path := [".git"; "hooks"; "pre-push"].
Definition sample_hook : path := [".git"; "hooks"; "pre-commit.sample"].

(** A checkout with three hooks, built documentation and coverage data. *)
Definition repo : filesystem :=
  <[ pre_commit_hook := File hook_text ]>
  (<[ pre_push_hook := File shell_hook_text ]>
  (<[ sample_hook := File hook_text ]>
  (<[ [".git"; "hooks"] := Dir ]>
  (<[ [".git"] := Dir ]>
  (<[ ["docs"; "_build"; "index.html"] := File "" ]>
  (<[ ["docs"; "_build"] := Dir ]>
  (<[ ["docs"] := Dir ]>
  (<[ [".coverage.host.1"] := File "" ]> ∅)))))))).

(** A checkout whose only hook spells the bin directory in capitals. *)
Definition shouting_repo : filesystem :=
  <[ pre_commit_hook := File shouting_hook_text ]>
  (<[ [".git"; "hooks"] := Dir ]> ∅).

(** A checkout with an empty hook file. *)
Definition empty_hook_repo : filesystem :=
  <[ pre_commit_hook := File "" ]>
  (<[ [".git"; "hooks"] := Dir ]> ∅).

(** What the helper makes of [hook_text] in [install_session]. *)
Definition patched_hook_text : string :=
  "#!/usr/bin/env python3" +:+ str newline +:+
  "import os" +:+ str newline +:+
  "os.environ[" +:+ str dquote +:+ "VIRTUAL_ENV" +:+ str dquote +:+ "] = '/v'"
    +:+ str newline +:+
  "os.environ[" +:+ str dquote +:+ "PATH" +:+ str dquote +:+
    "] = os.pathsep.join((" +:+ str newline +:+
  "    '/v/bin'," +:+ str newline +:+
  "    os.environ.get(" +:+ str dquote +:+ "PATH" +:+ str dquote +:+ ", " +:+
    str dquote +:+ str dquote +:+ ")," +:+ str newline +:+
  "))" +:+ str newline +:+
  str newline +:+
  "INSTALL_PYTHON = '/v/bin/python'" +:+ str newline +:+
  "main()".

(** A checkout in which a regular file stands where the documentation
    is built. *)
Definition blocked_repo : filesystem :=
  <[ ["docs"; "_build"] := File "not a directory" ]>
  (<[ ["docs"] := Dir ]> ∅).

(** [hook_text] after two runs of the helper in [install_session]. *)
Definition twice_patched_hook_text : string :=
  join (str newline)
    ("#!/usr/bin/env python3" :: header_text "/v" "/v/bin" ::
     header_lines "/v" "/v/bin" ++
     [""; "INSTALL_PYTHON = '/v/bin/python'"; "main()"]).

End Examples.

(* ===================================================================== *)
(** * Text lemmas *)
(* ===================================================================== *)

Import Text Fs Nox Facts.

Lemma splitlines_nonempty (s : string) : s ≠ "" → splitlines s ≠ [].
Proof.
  destruct s as [|c tl]; [done|]. intros _. simpl.
  destruct (is_linebreak c).
  - destruct tl as [|c2 tl2]; [done|]. by destruct (_ && _).
  - by destruct (splitlines tl).
Qed.

Lemma contains_nonempty (needle hay : string) :
  contains needle hay = true → needle ≠ "" → hay ≠ "".
Proof. intros Hc Hn ->. destruct needle; [done|]. discriminate Hc. Qed.

Lemma lower_empty (s : string) : lower s = "" → s = "".
Proof. by destruct s. Qed.

Lemma substring_0_app (x y : string) :
  String.substring 0 (String.length x) (x +:+ y) = x.
Proof. induction x as [|c x IH]; simpl; [by destruct y|by rewrite IH]. Qed.

Lemma length_app_str (x : string) (c : ascii) :
  String.length (x +:+ str c) = S (String.length x).
Proof. induction x as [|d x IH]; simpl; [done|by rewrite IH]. Qed.

(** [repr(s)[1:-1]] is the escaped text between the quotes. *)
Lemma slice_repr (s : string) : slice_1_m1 (repr s) = repr_body (repr_quote s) s.
Proof.
  unfold slice_1_m1, repr. cbn [String.length String.substring].
  rewrite length_app_str. cbn [Nat.sub].
  rewrite Nat.sub_0_r. apply substring_0_app.
Qed.

Lemma repr_char_nonempty (q c : ascii) : repr_char q c ≠ "".
Proof.
  unfold repr_char, hex_escape, str.
  repeat (case_match; try discriminate).
Qed.

Lemma repr_body_nonempty (q : ascii) (s : string) : s ≠ "" → repr_body q s ≠ "".
Proof.
  destruct s as [|c tl]; [done|]. intros _. simpl.
  pose proof (repr_char_nonempty q c). by destruct (repr_char q c).
Qed.

Lemma append_cons (c : ascii) (s t : string) :
  String c s +:+ t = String c (s +:+ t).
Proof. reflexivity. Qed.

Lemma append_nil_r (s : string) : s +:+ "" = s.
Proof. induction s as [|c s IH]; [done|]. by rewrite append_cons, IH. Qed.

Lemma free_of_app (c : ascii) (s t : string) :
  free_of c (s +:+ t) = free_of c s && free_of c t.
Proof.
  induction s as [|a s IH]; [done|].
  rewrite append_cons. cbn [free_of]. rewrite IH. by rewrite andb_assoc.
Qed.

Lemma split_nl_not_nil (t : string) : split_nl t ≠ [].
Proof.
  destruct t as [|c t]; cbn [split_nl]; [done|].
  destruct (Ascii.eqb c newline); [done|]. by destruct (split_nl t).
Qed.

Lemma split_nl_app (s t : string) :
  free_of newline s = true →
  split_nl (s +:+ t) =
    match split_nl t with
    | l :: ls => (s +:+ l) :: ls
    | [] => [s]
    end.
Proof.
  induction s as [|a s IH].
  - intros _. change ("" +:+ t) with t.
    pose proof (split_nl_not_nil t). by destruct (split_nl t).
  - rewrite append_cons. cbn [free_of split_nl].
    intros [Ha Hs]%andb_true_iff. apply negb_true_iff in Ha. rewrite Ha.
    rewrite (IH Hs). pose proof (split_nl_not_nil t). by destruct (split_nl t).
Qed.

Lemma repr_char_free (q c : ascii) :
  q ≠ newline → free_of newline (repr_char q c) = true.
Proof.
  intros Hq. unfold repr_char.
  destruct (Ascii.eqb c q || Ascii.eqb c backslash) eqn:E.
  - apply orb_true_iff in E as [E|E]; apply Ascii.eqb_eq in E; subst c.
    + cbn. apply Ascii.eqb_neq in Hq. by rewrite Hq.
    + done.
  - clear E. destruct c as [[] [] [] [] [] [] [] []]; vm_compute; reflexivity.
Qed.

Lemma repr_body_free (q : ascii) (s : string) :
  q ≠ newline → free_of newline (repr_body q s) = true.
Proof.
  intros Hq. induction s as [|c s IH]; cbn [repr_body]; [done|].
  by rewrite free_of_app, repr_char_free, IH.
Qed.

Lemma repr_free (s : string) : free_of newline (repr s) = true.
Proof.
  unfold repr.
  assert (repr_quote s ≠ newline) as Hq.
  { unfold repr_quote. by destruct (_ && _). }
  cbn [free_of]. apply andb_true_iff. split.
  { apply negb_true_iff. by apply Ascii.eqb_neq. }
  rewrite free_of_app. apply andb_true_iff. split.
  - by apply repr_body_free.
  - cbn. rewrite andb_true_r. apply negb_true_iff. by apply Ascii.eqb_neq.
Qed.

Lemma append_nil_l (t : string) : "" +:+ t = t.
Proof. reflexivity. Qed.

Lemma append_assoc (a b c : string) : (a +:+ b) +:+ c = a +:+ (b +:+ c).
Proof. induction a as [|x a IH]; [done|]. by rewrite !append_cons, IH. Qed.

Lemma split_nl_newline (t : string) :
  split_nl (str newline +:+ t) = "" :: split_nl t.
Proof. reflexivity. Qed.

(** Appends with a literal on the left are computed; the others are
    nested to the right. *)
Ltac norm_app :=
  repeat (progress (cbv [String.append]; fold String.append;
                    rewrite ?append_assoc, ?append_nil_r)).

Lemma header_explicit (v b : string) : header v b = header_text v b.
Proof.
  unfold header, dedent.
  assert (split_nl (header_template v b) =
    [ "            import os";
      "            os.environ[" +:+ str dquote +:+ "VIRTUAL_ENV" +:+ str dquote +:+
        "] = " +:+ repr v;
      "            os.environ[" +:+ str dquote +:+ "PATH" +:+ str dquote +:+
        "] = os.pathsep.join((";
      "                " +:+ repr b +:+ ",";
      "                os.environ.get(" +:+ str dquote +:+ "PATH" +:+ str dquote +:+
        ", " +:+ str dquote +:+ str dquote +:+ "),";
      "            ))";
      "            " ]) as ->.
  { unfold header_template.
    repeat first
      [ rewrite split_nl_newline
      | rewrite split_nl_app by first [apply repr_free | reflexivity] ].
    cbv [split_nl Ascii.eqb Bool.eqb newline]. by rewrite !append_nil_r. }
  unfold header_text, repr.
  generalize (repr_body (repr_quote v) v) (repr_body (repr_quote b) b).
  intros bv bb.
  assert (repr_quote b = dquote ∨ repr_quote b = squote) as [-> | ->].
  { unfold repr_quote. destruct (_ && _); auto. }
  all: generalize (repr_quote v); intros qv.
  all: unfold str, dquote, squote, newline; norm_app.
  all: cbv -[String.append]; norm_app; reflexivity.
Qed.

(* ===================================================================== *)
(** * Filesystem lemmas *)
(* ===================================================================== *)


Lemma child_name_Some (d k : path) (n : string) :
  child_name d k = Some n ↔ k = child d n.
Proof.
  unfold child. revert k. induction d as [|x d IH]; intros k; simpl.
  - destruct k as [|y [|z k]]; split; intros; simplify_eq/=; done.
  - destruct k as [|y k]; [split; intros; simplify_eq/=|].
    case_decide; [subst; rewrite IH|]; split; intros; simplify_eq/=; done.
Qed.

Lemma child_inj (d : path) (a b : string) : child d a = child d b → a = b.
Proof. unfold child. intros H. by simplify_list_eq. Qed.


Lemma elem_of_iterdir (f : filesystem) (d : path) (n : string) :
  n ∈ iterdir f d ↔ is_Some (f !! child d n).
Proof.
  unfold iterdir. rewrite list_elem_of_omap. split.
  - intros ([k x] & Hin & Hc). simpl in Hc. apply child_name_Some in Hc as ->.
    apply elem_of_map_to_list in Hin. eauto.
  - intros [x Hx]. exists (child d n, x). split.
    + by apply elem_of_map_to_list.
    + by apply child_name_Some.
Qed.

Lemma NoDup_omap_inj {A B} (g : A → option B) (l : list A) :
  (∀ a a' b, a ∈ l → a' ∈ l → g a = Some b → g a' = Some b → a = a') →
  NoDup l → NoDup (omap g l).
Proof.
  intros Hg Hl. induction Hl as [|a l Ha Hl IH]; simpl; [constructor|].
  assert (NoDup (omap g l)) as Hrec.
  { apply IH. intros a1 a2 b H1 H2. apply Hg; by apply list_elem_of_further. }
  destruct (g a) as [b|] eqn:Hb; [|done].
  constructor; [|done].
  rewrite list_elem_of_omap. intros (a' & Ha' & Hb').
  assert (a = a') as <-; [|done].
  apply (Hg a a' b); [apply list_elem_of_here|by apply list_elem_of_further|done..].
Qed.

Lemma NoDup_iterdir (f : filesystem) (d : path) : NoDup (iterdir f d).
Proof.
  unfold iterdir. apply NoDup_omap_inj; [|apply NoDup_map_to_list].
  intros [k x] [k' x'] n Hin Hin' Hk Hk'. simpl in *.
  apply child_name_Some in Hk, Hk'. subst.
  apply elem_of_map_to_list in Hin, Hin'. congruence.
Qed.

Lemma lookup_remove_tree (f : filesystem) (p q : path) :
  remove_tree f p !! q = if decide (p `prefix_of` q) then None else f !! q.
Proof.
  unfold remove_tree. rewrite map_lookup_filter.
  destruct (f !! q) as [x|] eqn:E; simpl; case_decide; try done.
  - by rewrite option_guard_False by (intros Hn; by apply Hn).
  - by rewrite option_guard_True.
Qed.

(* ===================================================================== *)
(** * The hook-patching helper *)
(* ===================================================================== *)

#[local] Arguments hookdir : simpl never.
#[local] Arguments build_dir : simpl never.
#[local] Arguments child : simpl never.
#[local] Arguments slice_1_m1 : simpl never.
#[local] Arguments repr : simpl never.
#[local] Arguments header : simpl never.
#[local] Arguments hook_mentions : simpl never.
#[local] Arguments is_python_shebang : simpl never.
#[local] Arguments endswith : simpl never.
#[local] Arguments splitlines : simpl never.
#[local] Arguments join : simpl never.

Section Hooks.
Variable h : host.
Variables virtualenv sbin : string.

Let vd_of (f : filesystem) (n : string) : verdict :=
  hook_verdict h virtualenv sbin n (f !! child hookdir n).

Lemma patch_hook_eq (name : string) (w : world) :
  let q := child hookdir name in
  let vd := hook_verdict h virtualenv sbin name (fs w !! q) in
  patch_hook h virtualenv sbin name w =
    (verdict_outcome vd,
     World (verdict_fs q vd (fs w))
           (log w ++ (stamp (fs w) <$> verdict_events q vd))).
Proof.
  intros q vd. subst vd. destruct w as [f l].
  unfold patch_hook, hook_verdict, bind, get_fs, read_text, write_text, emit,
    put_fs, ret, raise, is_file, stamp. cbn. fold q.
  repeat (case_match; cbn in *; simplify_eq);
    rewrite ?app_nil_r, <- ?app_assoc; try done.
Qed.


Lemma filter_about_same (q : path) (f : filesystem) (vd : verdict) :
  filter (about q) (stamp f <$> verdict_events q vd) = stamp f <$> verdict_events q vd.
Proof.
  destruct vd; cbn; rewrite ?decide_True by reflexivity; done.
Qed.

Lemma filter_about_other (q q' : path) (f : filesystem) (vd : verdict) :
  q ≠ q' → filter (about q') (stamp f <$> verdict_events q vd) = [].
Proof.
  intros Hne.
  assert (∀ e, touches e = Some q → ¬ about q' (stamp f e)) as Hno.
  { intros e He Ha. unfold about in Ha. cbn in Ha. congruence. }
  destruct vd; cbn; rewrite ?decide_False by (by apply Hno); done.
Qed.

Lemma verdict_fs_other (q q' : path) (vd : verdict) (f : filesystem) :
  q ≠ q' → verdict_fs q vd f !! q' = f !! q'.
Proof. intros Hne. destruct vd; cbn; try done. by rewrite lookup_insert_ne. Qed.

Lemma verdict_fs_same (q : path) (vd : verdict) (f : filesystem) :
  verdict_fs q vd f !! q = verdict_node vd (f !! q).
Proof. destruct vd; cbn; try done. by rewrite lookup_insert_eq. Qed.

Lemma for_each_patch_hook (names : list string) :
  NoDup names → ∀ w, ∃ r f' d,
    for_each names (patch_hook h virtualenv sbin) w = (r, World f' (log w ++ d)) ∧
    (r = Ok tt ∨
     (r = Raised IndexError ∧ ∃ n, n ∈ names ∧ vd_of (fs w) n = Crashed)) ∧
    (∀ q, (∀ n, n ∈ names → q ≠ child hookdir n) →
          f' !! q = fs w !! q ∧ filter (about q) d = []) ∧
    (∀ x, x ∈ d → ∃ n, n ∈ names ∧ about (child hookdir n) x) ∧
    (∀ n, n ∈ names →
       ((filter (about (child hookdir n)) d).*1
          = verdict_events (child hookdir n) (vd_of (fs w) n) ∧
        f' !! child hookdir n
          = verdict_node (vd_of (fs w) n) (fs w !! child hookdir n))
       ∨ (r ≠ Ok tt ∧ filter (about (child hookdir n)) d = [] ∧
          f' !! child hookdir n = fs w !! child hookdir n)).
Proof.
  induction 1 as [|n rest Hn Hrest IH]; intros w.
  { exists (Ok tt), (fs w), []. destruct w as [f l]; cbn. rewrite app_nil_r.
    split; [done|]. split; [by left|]. split; [done|].
    split; by intros ? ?%elem_of_nil. }
  cbn [for_each]. unfold bind at 1. rewrite patch_hook_eq.
  fold (vd_of (fs w) n).
  remember (child hookdir n) as q eqn:Hq.
  remember (vd_of (fs w) n) as vd eqn:Hvd0.
  remember (stamp (fs w) <$> verdict_events q vd) as d1 eqn:Hd1eq.
  assert (Hother : ∀ m, m ∈ rest → child hookdir m ≠ q).
  { intros m Hm Heq. subst q. apply child_inj in Heq. by subst. }
  assert (Hd1 : ∀ x, x ∈ d1 → about q x).
  { intros x Hx. rewrite Hd1eq, <- filter_about_same in Hx.
    by apply list_elem_of_filter in Hx as [? _]. }
  assert (Hfst : d1.*1 = verdict_events q vd).
  { rewrite Hd1eq, <- list_fmap_compose. apply list_fmap_id. }
  assert (Hsame : filter (about q) d1 = d1).
  { rewrite Hd1eq. apply filter_about_same. }
  assert (Hdiff : ∀ q', q ≠ q' → filter (about q') d1 = []).
  { intros q' Hne. rewrite Hd1eq. by apply filter_about_other. }
  clear Hd1eq.
  destruct (decide (vd = Crashed)) as [Hc|Hc].
  - (* the loop stops at [n] *)
    rewrite Hc in *. cbn [verdict_outcome verdict_fs].
    exists (Raised IndexError), (fs w), d1. split; [done|]. split; [|split; [|split]].
    + right. split; [done|]. exists n. split; [apply list_elem_of_here|done].
    + intros q' Hq'. split; [done|]. apply Hdiff.
      intros <-. eapply Hq'; [apply list_elem_of_here|done].
    + intros x Hx. exists n. split; [apply list_elem_of_here|].
      rewrite <- Hq. by apply Hd1.
    + intros m Hm. apply elem_of_cons in Hm as [->|Hm].
      * left. rewrite <- Hq, <- Hvd0, Hsame. done.
      * right. split; [done|]. split; [|done].
        apply Hdiff. intros Heq. by eapply Hother.
  - (* the body returns and the loop goes on *)
    assert (verdict_outcome vd = Ok tt) as -> by by destruct vd.
    destruct (IH (World (verdict_fs q vd (fs w)) (log w ++ d1)))
      as (r & f' & d2 & Hrun & Hr & Hframe & Hev & Hper).
    cbn [fs log] in *.
    assert (Hvd : ∀ m, m ∈ rest → vd_of (verdict_fs q vd (fs w)) m = vd_of (fs w) m).
    { intros m Hm. unfold vd_of. rewrite verdict_fs_other; [done|].
      intros Heq. by eapply Hother. }
    exists r, f', (d1 ++ d2). split; [by rewrite Hrun, app_assoc|].
    split; [|split; [|split]].
    + destruct Hr as [->|(-> & m & Hm & Hcr)]; [by left|right].
      split; [done|]. exists m. split; [by apply list_elem_of_further|].
      by rewrite <- Hvd.
    + intros q' Hq'. destruct (Hframe q') as [Hf Hd2].
      { intros m Hm. apply Hq'. by apply list_elem_of_further. }
      assert (q ≠ q') by (intros <-; eapply Hq'; [apply list_elem_of_here|done]).
      split; [by rewrite Hf, verdict_fs_other|].
      rewrite filter_app, Hd2, app_nil_r. by apply Hdiff.
    + intros x [Hx|Hx]%elem_of_app.
      * exists n. split; [apply list_elem_of_here|]. rewrite <- Hq. by apply Hd1.
      * destruct (Hev x Hx) as (m & Hm & Hab). exists m.
        split; [by apply list_elem_of_further|done].
    + intros m Hm. apply elem_of_cons in Hm as [->|Hm].
      * left. rewrite <- Hq, <- Hvd0.
        destruct (Hframe q) as [Hf Hd2].
        { intros m Hm Heq. by eapply Hother. }
        by rewrite filter_app, Hd2, app_nil_r, Hsame, Hf, verdict_fs_same.
      * assert (q ≠ child hookdir m) by (intros Heq; by eapply Hother).
        rewrite filter_app, (Hdiff (child hookdir m)); [|done]. cbn [app].
        destruct (Hper m Hm) as [[He Hf]|(Hr' & He & Hf)].
        -- left. rewrite Hvd, verdict_fs_other in *; done.
        -- right. rewrite verdict_fs_other in Hf; done.
Qed.
End Hooks.

Section Helper.
Variable h : host.

Lemma hook_verdict_Patched (v b n new : string) (o : option node) :
  hook_verdict h v b n o = Patched new ↔
  endswith n ".sample" = false ∧
  ∃ text first rest,
    o = Some (File text) ∧
    hook_mentions h (slice_1_m1 (repr b)) text = true ∧
    splitlines text = first :: rest ∧
    is_python_shebang first = true ∧
    new = join (str newline) (first :: header v b :: rest).
Proof.
  unfold hook_verdict. split.
  - intros H. repeat case_match; simplify_eq/=.
    split; [done|]. eexists _, _, _. repeat split; try done.
    by apply negb_false_iff.
  - intros (-> & text & first & rest & -> & -> & -> & -> & ->). done.
Qed.

Lemma hook_verdict_Crashed (v b n : string) (o : option node) :
  hook_verdict h v b n o = Crashed →
  ∃ text, o = Some (File text) ∧
          hook_mentions h (slice_1_m1 (repr b)) text = true ∧
          splitlines text = [].
Proof.
  unfold hook_verdict. intros H. repeat case_match; simplify_eq/=.
  eexists. repeat split; try done. by apply negb_false_iff.
Qed.

Lemma hook_verdict_Skipped (v b n : string) (f : filesystem) :
  endswith n ".sample" = true ∨ is_file f (child hookdir n) = false →
  hook_verdict h v b n (f !! child hookdir n) = Skipped.
Proof.
  unfold hook_verdict, is_file. intros [->| H]; [done|].
  repeat case_match; simplify_eq/=; done.
Qed.

(** A text that mentions a non-empty bin directory has a first line. *)
Lemma mentions_has_line (b text : string) :
  b ≠ "" → hook_mentions h (slice_1_m1 (repr b)) text = true →
  splitlines text ≠ [].
Proof.
  intros Hb Hm. apply splitlines_nonempty. rewrite slice_repr in Hm.
  pose proof (repr_body_nonempty (repr_quote b) b Hb) as Hne.
  unfold hook_mentions in Hm.
  apply orb_true_iff in Hm as [[_ Hm]%andb_true_iff|Hm].
  - intros ->. apply (contains_nonempty _ _ Hm); [|done].
    intros Hl. by apply lower_empty in Hl.
  - by apply (contains_nonempty _ _ Hm).
Qed.

(** What a run of the helper amounts to: either a guard at the top
    returns at once, or the loop runs over the entries of the hooks
    directory and treats each by its verdict on the initial filesystem,
    up to the entry, if any, at which [lines[0]] fails. *)
Lemma activate_run (s : Session) (w : world) :
  ((bin s = None ∨ env s !! "VIRTUAL_ENV" = None ∨ is_dir (fs w) hookdir = false) ∧
   activate_virtualenv_in_precommit_hooks h s w = (Ok tt, w))
  ∨ ∃ b v r f' d,
      bin s = Some b ∧ env s !! "VIRTUAL_ENV" = Some v ∧
      is_dir (fs w) hookdir = true ∧
      activate_virtualenv_in_precommit_hooks h s w = (r, World f' (log w ++ d)) ∧
      (r = Ok tt ∨
       (r = Raised IndexError ∧
        ∃ n, hook_verdict h v b n (fs w !! child hookdir n) = Crashed)) ∧
      (∀ x, x ∈ d → ∃ n, about (child hookdir n) x) ∧
      (∀ q, (∀ n, q ≠ child hookdir n) → f' !! q = fs w !! q) ∧
      (∀ n,
         ((filter (about (child hookdir n)) d).*1
            = verdict_events (child hookdir n)
                (hook_verdict h v b n (fs w !! child hookdir n)) ∧
          f' !! child hookdir n
            = verdict_node (hook_verdict h v b n (fs w !! child hookdir n))
                (fs w !! child hookdir n))
         ∨ (r ≠ Ok tt ∧ filter (about (child hookdir n)) d = [] ∧
            f' !! child hookdir n = fs w !! child hookdir n)).
Proof.
  destruct (bin s) as [b|] eqn:Hb.
  2: { left. split; [auto|]. unfold activate_virtualenv_in_precommit_hooks.
       by rewrite Hb. }
  destruct (env s !! "VIRTUAL_ENV") as [v|] eqn:Hv.
  2: { left. split; [auto|]. unfold activate_virtualenv_in_precommit_hooks.
       by rewrite Hb, Hv. }
  destruct (is_dir (fs w) hookdir) eqn:Hd.
  2: { left. split; [auto|]. unfold activate_virtualenv_in_precommit_hooks.
       rewrite Hb, Hv. unfold bind, get_fs. by rewrite Hd. }
  assert (activate_virtualenv_in_precommit_hooks h s w
          = for_each (iterdir (fs w) hookdir) (patch_hook h v b) w) as Heq.
  { unfold activate_virtualenv_in_precommit_hooks.
    rewrite Hb, Hv. unfold bind at 1, get_fs. by rewrite Hd. }
  right. exists b, v.
  destruct (for_each_patch_hook h v b _ (NoDup_iterdir (fs w) hookdir) w)
    as (r & f' & d & Hrun & Hr & Hframe & Hev & Hper).
  exists r, f', d. do 3 (split; [done|]). split; [by rewrite Heq|].
  split; [|split; [|split]].
  - destruct Hr as [->|(-> & n & _ & Hn)]; [by left|right; eauto].
  - intros x Hx. destruct (Hev x Hx) as (n & _ & Hn). eauto.
  - intros q Hq. apply Hframe. intros n _. apply Hq.
  - intros n. destruct (decide (n ∈ iterdir (fs w) hookdir)) as [Hin|Hout].
    { by apply Hper. }
    left. destruct (Hframe (child hookdir n)) as [Hf Hd'].
    { intros m Hm Hc. apply child_inj in Hc. by subst. }
    rewrite Hd', Hf.
    assert (fs w !! child hookdir n = None) as Hnone.
    { apply eq_None_not_Some. by rewrite <- elem_of_iterdir. }
    rewrite (hook_verdict_Skipped v b n (fs w)); [done|].
    right. unfold is_file. by rewrite Hnone.
Qed.


Lemma added_app (w : world) (f' : filesystem) (d : list (event * filesystem)) :
  added w (World f' (log w ++ d)) = d.
Proof. unfold added. cbn. by rewrite drop_app_length. Qed.

Lemma added_same (w : world) : added w w = [].
Proof. unfold added. by rewrite drop_all. Qed.

Lemma filter_none {A} (P : A → Prop) `{∀ x, Decision (P x)} (l : list A) :
  (∀ x, x ∈ l → ¬ P x) → filter P l = [].
Proof.
  induction l as [|a l IH]; intros Hl; [done|].
  rewrite filter_cons_False; [|apply Hl, list_elem_of_here].
  apply IH. intros x Hx. by apply Hl, list_elem_of_further.
Qed.

Lemma hook_or_not (p : path) :
  (∃ n, p = child hookdir n) ∨ (∀ n, p ≠ child hookdir n).
Proof.
  destruct (child_name hookdir p) as [n|] eqn:Hn.
  - left. exists n. by apply child_name_Some.
  - right. intros n Hp. apply child_name_Some in Hp. congruence.
Qed.

(** The effect of a run of the helper on one path: none, or that of the
    verdict on the entry the path names. *)
Lemma helper_at_path (s : Session) (w : world) (p : path) :
  let w' := (activate_virtualenv_in_precommit_hooks h s w).2 in
  (fs w' !! p = fs w !! p ∧ filter (about p) (added w w') = [])
  ∨ ∃ b v n,
      bin s = Some b ∧ env s !! "VIRTUAL_ENV" = Some v ∧
      is_dir (fs w) hookdir = true ∧ p = child hookdir n ∧
      (filter (about p) (added w w')).*1
        = verdict_events p (hook_verdict h v b n (fs w !! p)) ∧
      fs w' !! p = verdict_node (hook_verdict h v b n (fs w !! p)) (fs w !! p).
Proof.
  intros w'. subst w'.
  destruct (activate_run s w) as [[_ ->]|(b & v & r & f' & d & Hb & Hv & Hd & -> &
    Hr & Hev & Hframe & Hper)]; cbn [snd].
  { left. by rewrite added_same. }
  rewrite added_app. cbn [fs].
  destruct (hook_or_not p) as [[n ->]|Hp].
  - destruct (Hper n) as [[He Hf]|(_ & He & Hf)]; [|by left].
    right. exists b, v, n. done.
  - left. split; [by apply Hframe|].
    apply filter_none. intros x Hx Hab.
    destruct (Hev x Hx) as (n & Hn). unfold about in *.
    apply (Hp n). congruence.
Qed.

(** A hook that passes every guard is read once and written once, with
    the header after its first line, when the helper returns. *)
Lemma helper_patches (s : Session) (w : world) (b v name text first : string)
    (rest : list string) :
  bin s = Some b → env s !! "VIRTUAL_ENV" = Some v →
  is_dir (fs w) hookdir = true →
  endswith name ".sample" = false →
  fs w !! child hookdir name = Some (File text) →
  hook_mentions h (slice_1_m1 (repr b)) text = true →
  splitlines text = first :: rest →
  is_python_shebang first = true →
  (activate_virtualenv_in_precommit_hooks h s w).1 = Ok tt →
  let w' := (activate_virtualenv_in_precommit_hooks h s w).2 in
  let new := join (str newline) (first :: header v b :: rest) in
  (filter (about (child hookdir name)) (added w w')).*1
    = [ReadText (child hookdir name); WroteText (child hookdir name) new] ∧
  fs w' !! child hookdir name = Some (File new).
Proof.
  intros Hb Hv Hd Hs Hf Hm Hl Hsh Hok w' new. subst w'.
  destruct (activate_run s w) as [[Hg _]|(b' & v' & r & f' & d & Hb' & Hv' & _ & Hrun &
    _ & _ & _ & Hper)].
  { destruct Hg as [?|[?|?]]; congruence. }
  rewrite Hrun in *. cbn [fst snd fs] in *. subst r. rewrite added_app.
  assert (b' = b) as -> by congruence. assert (v' = v) as -> by congruence.
  destruct (Hper name) as [[He Hn]|(Hr & _)]; [|done].
  assert (hook_verdict h v b name (fs w !! child hookdir name) = Patched new) as Hvd.
  { apply hook_verdict_Patched. split; [done|]. by exists text, first, rest. }
  rewrite Hvd in *. done.
Qed.

End Helper.

(* ===================================================================== *)
(** * Properties of the hook-patching helper *)
(* ===================================================================== *)

Section HelperClaims.
Import Examples.
Variable h : host.

(** C3 (as the code has it).  The helper changes nothing and logs nothing
    when one of its three guards is unmet: the session has no bin
    directory ([session.bin is None]), [VIRTUAL_ENV] is absent from the
    session environment, or [.git/hooks] is not a directory.  Whether the
    session is interactive is not one of the guards. *)
Theorem helper_noop_when_guard_unmet (s : Session) (w : world) :
  bin s = None ∨ env s !! "VIRTUAL_ENV" = None ∨ is_dir (fs w) hookdir = false →
  activate_virtualenv_in_precommit_hooks h s w = (Ok tt, w).
Proof.
  intros Hg. destruct (activate_run h s w) as [[_ Hrun]|(b & v & r & f' & d & Hb & Hv & Hd & _)].
  - done.
  - destruct Hg as [?|[?|?]]; congruence.
Qed.

(** C4.  The helper writes a file only if the first line of its text
    starts with [#!] and contains [python] in any case; a path that does
    not hold such a file keeps what it held. *)
Theorem helper_writes_only_python_scripts (s : Session) (w : world) (p : path) :
  let w' := (activate_virtualenv_in_precommit_hooks h s w).2 in
  (∀ t fr, (WroteText p t, fr) ∈ added w w' →
     ∃ text, fs w !! p = Some (File text) ∧ python_script text = true) ∧
  ((∀ text, fs w !! p = Some (File text) → python_script text = false) →
     fs w' !! p = fs w !! p ∧ ∀ t fr, (WroteText p t, fr) ∉ added w w').
Proof.
  intros w'.
  assert (∀ t fr, (WroteText p t, fr) ∈ added w w' →
     ∃ text, fs w !! p = Some (File text) ∧ python_script text = true) as Hwr.
  { intros t fr Hin.
    assert ((WroteText p t, fr) ∈ filter (about p) (added w w')) as Hin'.
    { by apply list_elem_of_filter. }
    destruct (helper_at_path h s w p) as [[_ He]|(b & v & n & _ & _ & _ & -> & He & _)].
    { fold w' in He. rewrite He in Hin'. by apply elem_of_nil in Hin'. }
    fold w' in He.
    apply (list_elem_of_fmap_2 fst) in Hin'. rewrite He in Hin'. cbn in Hin'.
    destruct (hook_verdict h v b n _) as [| | |new] eqn:Hvd; cbn in Hin';
      try (by repeat (apply elem_of_cons in Hin' as [?|Hin']; [done|]);
              apply elem_of_nil in Hin').
    apply hook_verdict_Patched in Hvd
      as (_ & text & first & rest & Hf & _ & Hl & Hsh & _).
    exists text. split; [done|]. unfold python_script. by rewrite Hl. }
  split; [done|]. intros Hno.
  assert (∀ t fr, (WroteText p t, fr) ∉ added w w') as Hnw.
  { intros t fr Hin. destruct (Hwr t fr Hin) as (text & Hf & Hpy).
    rewrite (Hno text Hf) in Hpy. done. }
  split; [|done].
  destruct (helper_at_path h s w p) as [[Hf _]|(b & v & n & _ & _ & _ & -> & _ & Hf)].
  { done. }
  fold w' in Hf. rewrite Hf.
  destruct (hook_verdict h v b n _) as [| | |new] eqn:Hvd; try done.
  apply hook_verdict_Patched in Hvd
    as (_ & text & first & rest & Hf' & _ & Hl & Hsh & _).
  specialize (Hno text Hf'). unfold python_script in Hno. rewrite Hl in Hno. congruence.
Qed.

(** C10.  An entry of [.git/hooks] whose name ends with [.sample], or
    that is not a regular file, is neither read nor written and keeps
    what it held. *)
Theorem helper_skips_samples_and_non_files (s : Session) (w : world) (name : string) :
  endswith name ".sample" = true ∨ is_file (fs w) (child hookdir name) = false →
  let w' := (activate_virtualenv_in_precommit_hooks h s w).2 in
  (∀ x, x ∈ added w w' → ¬ about (child hookdir name) x) ∧
  fs w' !! child hookdir name = fs w !! child hookdir name.
Proof.
  intros Hskip w'.
  assert (filter (about (child hookdir name)) (added w w') = [] ∧
          fs w' !! child hookdir name = fs w !! child hookdir name) as [He Hf].
  { destruct (helper_at_path h s w (child hookdir name))
      as [[Hf He]|(b & v & n & _ & _ & _ & Hn & He & Hf)]; [done|].
    apply child_inj in Hn as <-. fold w' in He, Hf.
    rewrite (hook_verdict_Skipped h v b name (fs w) Hskip) in *.
    split; [|done]. by apply fmap_nil_inv in He. }
  split; [|done]. intros x Hx Hab.
  by eapply filter_nil_not_elem_of.
Qed.

(** C9.  With a non-empty bin directory, a text that passes the match of
    lines 65-67 has a first line, so [lines[0]] is in bounds and the
    helper returns without an exception. *)
Theorem first_line_in_bounds (s : Session) (w : world) (b : string) :
  bin s = Some b → b ≠ "" →
  (∀ text, hook_mentions h (slice_1_m1 (repr b)) text = true →
           ∃ first rest, splitlines text = first :: rest) ∧
  (activate_virtualenv_in_precommit_hooks h s w).1 = Ok tt.
Proof.
  intros Hb Hne. split.
  - intros text Hm. pose proof (mentions_has_line h b text Hne Hm) as Hl.
    destruct (splitlines text) as [|first rest]; [done|eauto].
  - destruct (activate_run h s w) as [[_ ->]|(b' & v & r & f' & d & Hb' & _ & _ & -> &
      Hr & _)]; [done|].
    destruct Hr as [->|(_ & n & Hc)]; [done|].
    assert (b' = b) as -> by congruence.
    apply hook_verdict_Crashed in Hc as (text & _ & Hm & Hl).
    by destruct (mentions_has_line h b text Hne Hm).
Qed.

(** C8.  The match of lines 65-67 depends on the host.  Where paths
    distinguish case it is the exact substring test, and a hook is
    written only if its text contains the bin directory exactly; where
    paths ignore case a match of the lowered texts suffices too, and a
    hook that passes the other guards with such a match is written. *)
Theorem hook_match_depends_on_host (s : Session) (w : world) (b : string) :
  bin s = Some b →
  let bindir := slice_1_m1 (repr b) in
  let w' := (activate_virtualenv_in_precommit_hooks h s w).2 in
  (path_ignores_case h = false →
     (∀ text, hook_mentions h bindir text = contains bindir text) ∧
     (∀ p t fr, (WroteText p t, fr) ∈ added w w' →
        ∃ text, fs w !! p = Some (File text) ∧ contains bindir text = true)) ∧
  (path_ignores_case h = true →
     (∀ text, hook_mentions h bindir text
              = contains (lower bindir) (lower text) || contains bindir text) ∧
     (∀ v name text first rest,
        env s !! "VIRTUAL_ENV" = Some v →
        is_dir (fs w) hookdir = true →
        endswith name ".sample" = false →
        fs w !! child hookdir name = Some (File text) →
        contains (lower bindir) (lower text) = true →
        splitlines text = first :: rest →
        is_python_shebang first = true →
        (activate_virtualenv_in_precommit_hooks h s w).1 = Ok tt →
        ∃ new fr, (WroteText (child hookdir name) new, fr) ∈ added w w' ∧
                  fs w' !! child hookdir name = Some (File new))).
Proof.
  intros Hb bindir w'. split; intros Hci.
  - assert (∀ text, hook_mentions h bindir text = contains bindir text) as Hm.
    { intros text. unfold hook_mentions. by rewrite Hci. }
    split; [done|]. intros p t fr Hin.
    assert ((WroteText p t, fr) ∈ filter (about p) (added w w')) as Hin'.
    { by apply list_elem_of_filter. }
    destruct (helper_at_path h s w p) as [[_ He]|(b' & v & n & Hb' & _ & _ & -> & He & _)].
    { fold w' in He. rewrite He in Hin'. by apply elem_of_nil in Hin'. }
    fold w' in He. assert (b' = b) as -> by congruence.
    apply (list_elem_of_fmap_2 fst) in Hin'. rewrite He in Hin'. cbn in Hin'.
    destruct (hook_verdict h v b n _) as [| | |new] eqn:Hvd; cbn in Hin';
      try (by repeat (apply elem_of_cons in Hin' as [?|Hin']; [done|]);
              apply elem_of_nil in Hin').
    apply hook_verdict_Patched in Hvd
      as (_ & text & first & rest & Hf & Hmen & _).
    exists text. split; [done|]. by rewrite <- Hm.
  - assert (∀ text, hook_mentions h bindir text
              = contains (lower bindir) (lower text) || contains bindir text) as Hm.
    { intros text. unfold hook_mentions. by rewrite Hci. }
    split; [done|]. intros v name text first rest Hv Hd Hs Hf Hlow Hl Hsh Hok.
    destruct (helper_patches h s w b v name text first rest) as [He Hn]; try done.
    { fold bindir. by rewrite Hm, Hlow. }
    fold w' in He, Hn. eexists. 
    assert (WroteText (child hookdir name)
              (join (str newline) (first :: header v b :: rest))
            ∈ (filter (about (child hookdir name)) (added w w')).*1) as Hin.
    { rewrite He. apply list_elem_of_further, list_elem_of_here. }
    apply list_elem_of_fmap in Hin as ([e fr] & Heq & Hin). cbn in Heq. subst e.
    apply list_elem_of_filter in Hin as [_ Hin]. eauto.
Qed.

End HelperClaims.

(* ===================================================================== *)
(** * Properties of the sessions *)
(* ===================================================================== *)

Section SessionClaims.
Import Examples.
Variable h : host.

(** A tool call logs the call, replaces the filesystem by the one the
    tool leaves, and raises when the tool fails. *)
Lemma call_eq (a : action) (w : world) :
  call h a w =
    (if (tool h a (fs w)).2 then Ok tt else Raised CommandFailed,
     World (tool h a (fs w)).1 (log w ++ [(Called a, fs w)])).
Proof.
  unfold call, bind, emit, get_fs, put_fs, ret, raise. cbn.
  destruct (tool h a (fs w)) as [f' [|]]; reflexivity.
Qed.

Lemma bind_call {B} (a : action) (k : unit → M B) (w : world) :
  bind (call h a) k w =
    if (tool h a (fs w)).2
    then k tt (World (tool h a (fs w)).1 (log w ++ [(Called a, fs w)]))
    else (Raised CommandFailed,
          World (tool h a (fs w)).1 (log w ++ [(Called a, fs w)])).
Proof. unfold bind. rewrite call_eq. by destruct (tool h a (fs w)) as [f' [|]]. Qed.

(** C1 (as the code has it).  In an interactive session whose packages
    install, the test command is invoked and the coverage session is
    notified right after it, whether the command succeeded or failed,
    and the failure is raised again afterwards; the notification is the
    last step after any invocation of the test command.  In a session
    that is not interactive no notification is made. *)
Theorem tests_notify_coverage (s : Session) (w : world) :
  let r := tests h s w in
  let i1 := tool h (Install ["."]) (fs w) in
  let i2 := tool h (Install ["coverage[toml]"]) i1.1 in
  let i3 := tool h (Install pytest_deps) i2.1 in
  let t := tool h (Run (test_command s)) i3.1 in
  (interactive s = true → i1.2 = true → i2.2 = true → i3.2 = true →
     added w r.2 =
       [(Called (Install ["."]), fs w);
        (Called (Install ["coverage[toml]"]), i1.1);
        (Called (Install pytest_deps), i2.1);
        (Called (Run (test_command s)), i3.1);
        (Notified "coverage", t.1)] ∧
     r.1 = if t.2 then Ok tt else Raised CommandFailed) ∧
  (interactive s = true →
     ∀ pre fr post,
       added w r.2 = pre ++ (Called (Run (test_command s)), fr) :: post →
       post = [(Notified "coverage", (tool h (Run (test_command s)) fr).1)] ∧
       r.1 = if (tool h (Run (test_command s)) fr).2
             then Ok tt else Raised CommandFailed) ∧
  (interactive s = false →
     ∀ x, x ∈ added w r.2 → x.1 ≠ Notified "coverage").
Proof.
  intros r i1 i2 i3 t. subst r.
  unfold tests, session_install, session_run, session_notify.
  fold (test_command s).
  rewrite bind_call; cbn [fs log]. fold i1.
  destruct (i1.2) eqn:E1.
  2: { cbn [snd]. rewrite added_app. split; [done|]. split.
       - intros _ pre fr post H. by repeat (destruct pre as [|? pre]; simplify_eq/=).
       - intros _ x Hx. by repeat (apply elem_of_cons in Hx as [->|Hx]; [done|]);
           apply elem_of_nil in Hx. }
  rewrite bind_call; cbn [fs log]. fold i2.
  destruct (i2.2) eqn:E2.
  2: { cbn [snd]. rewrite <- app_assoc, added_app. split; [done|]. split.
       - intros _ pre fr post H. by repeat (destruct pre as [|? pre]; simplify_eq/=).
       - intros _ x Hx. by repeat (apply elem_of_cons in Hx as [->|Hx]; [done|]);
           apply elem_of_nil in Hx. }
  rewrite bind_call; cbn [fs log]. fold i3.
  destruct (i3.2) eqn:E3.
  2: { cbn [snd]. rewrite <- !app_assoc, added_app. split; [done|]. split.
       - intros _ pre fr post H. by repeat (destruct pre as [|? pre]; simplify_eq/=).
       - intros _ x Hx. by repeat (apply elem_of_cons in Hx as [->|Hx]; [done|]);
           apply elem_of_nil in Hx. }
  unfold try_finally. rewrite call_eq. cbn [fst snd fs log]. fold t.
  destruct (interactive s); unfold emit, ret; cbn [fst snd fs log];
    rewrite <- !app_assoc, added_app; cbn [app].
  - split; [done|]. split; [|done]. intros _ pre fr post H.
    repeat (destruct pre as [|? pre]; simplify_eq/=). done.
  - split; [done|]. split; [done|]. intros _ x Hx.
    by repeat (apply elem_of_cons in Hx as [->|Hx]; [done|]); apply elem_of_nil in Hx.
Qed.


(** Coverage data is an entry of the working directory whose name starts
    with [.coverage.] (in any case where paths ignore case). *)
Lemma any_coverage_data_spec (f : filesystem) :
  any_coverage_data (path_ignores_case h) f = true ↔
  ∃ name, is_Some (f !! [name]) ∧
          matches_coverage_data (path_ignores_case h) name = true.
Proof.
  unfold any_coverage_data. rewrite existsb_exists. split.
  - intros (name & Hin & Hm). exists name. split; [|done].
    apply list_elem_of_In, elem_of_iterdir in Hin. done.
  - intros (name & Hin & Hm). exists name. split; [|done].
    apply list_elem_of_In, elem_of_iterdir. done.
Qed.

(** C2.  Once [coverage[toml]] is installed, the session runs the
    coverage tool with the caller's arguments exactly when there are
    some and the manifest has one session; otherwise it runs
    [coverage report], after [coverage combine] when the working
    directory has a [.coverage.*] entry (the report needs the combine
    step to succeed). *)
Theorem coverage_commands (s : Session) (f : filesystem) :
  let inst := tool h (Install ["coverage[toml]"]) f in
  let data := any_coverage_data (path_ignores_case h) inst.1 in
  inst.2 = true →
  (has_args s = false → data = true →
     (tool h (Run ["coverage"; "combine"]) inst.1).2 = true) →
  (has_args s = true ↔ posargs s ≠ [] ∧ manifest_len s = 1) ∧
  (data = true ↔
     ∃ name, is_Some (inst.1 !! [name]) ∧
             matches_coverage_data (path_ignores_case h) name = true) ∧
  commands_run (log (coverage h s (start f)).2)
    = coverage_plan (posargs s) (manifest_len s =? 1) data ∧
  (has_args s = true →
     commands_run (log (coverage h s (start f)).2) = ["coverage" :: posargs s]).
Proof.
  intros inst data Hinst Hcomb.
  assert (has_args s = true ↔ posargs s ≠ [] ∧ manifest_len s = 1) as Hargs.
  { unfold has_args. rewrite andb_true_iff, Nat.eqb_eq.
    destruct (posargs s); cbn; split; intros [? ?]; done. }
  split; [done|]. split; [apply any_coverage_data_spec|].
  assert (commands_run (log (coverage h s (start f)).2)
          = coverage_plan (posargs s) (manifest_len s =? 1) data) as Hrun.
  { unfold coverage, coverage_plan, session_install, session_run.
    fold (has_args s).
    rewrite bind_call; cbn [fs log start]. fold inst. rewrite Hinst.
    unfold bind at 1, get_fs. cbn [fs log]. fold data.
    destruct (has_args s) eqn:Ha; cbn [negb andb].
    - unfold bind, ret. rewrite call_eq. done.
    - destruct data eqn:Hd.
      + rewrite bind_call; cbn [fs log]. rewrite Hcomb by done.
        rewrite call_eq. done.
      + unfold bind, ret. rewrite call_eq. done. }
  split; [done|]. intros Ha. rewrite Hrun. unfold coverage_plan.
  by fold (has_args s); rewrite Ha.
Qed.

(** C6 (as the code has it).  The pre-commit session calls the helper
    exactly when its first positional argument is [install] and both its
    install step and the [pre-commit] command succeeded, then on the
    world the command left; otherwise nothing is read, written or
    removed by the session.  The session does not look at
    [session.interactive]. *)
Theorem precommit_calls_helper (s : Session) (w : world) :
  let inst := tool h (Install precommit_packages) (fs w) in
  let ran := tool h (Run (precommit_command s)) inst.1 in
  let w2 := World ran.1
              (log w ++ [(Called (Install precommit_packages), fs w);
                         (Called (Run (precommit_command s)), inst.1)]) in
  (head (posargs s) = Some "install" → inst.2 = true → ran.2 = true →
     precommit h s w = activate_virtualenv_in_precommit_hooks h s w2) ∧
  (head (posargs s) ≠ Some "install" ∨ inst.2 = false ∨ ran.2 = false →
     ∀ x, x ∈ added w (precommit h s w).2 → ¬ file_step x) ∧
  (∀ s', posargs s' = posargs s → bin s' = bin s → env s' = env s →
     precommit h s' w = precommit h s w).
Proof.
  intros inst ran w2.
  assert (∀ x d, x ∈ d → Forall (λ y, ¬ file_step y) d → ¬ file_step x) as Hall.
  { intros x d Hx Hd. by eapply Forall_forall in Hd. }
  assert (∀ a fr, ¬ file_step (Called a, fr)) as Hcall.
  { intros a fr [p Hp]. discriminate Hp. }
  unfold precommit, session_install, session_run.
  fold precommit_packages. fold (precommit_command s).
  rewrite bind_call; cbn [fs log]. fold inst.
  destruct (inst.2) eqn:Hi.
  2: { split; [done|]. split.
       - intros _ x Hx. cbn [snd] in Hx. rewrite added_app in Hx.
         eapply Hall; [done|]. by repeat constructor.
       - intros s' Hp Hb He. unfold session_install, session_run.
         rewrite bind_call; cbn [fs log]. fold precommit_packages inst.
         by rewrite Hi. }
  rewrite bind_call; cbn [fs log]. fold ran.
  destruct (ran.2) eqn:Hr.
  2: { split; [done|]. split.
       - intros _ x Hx. cbn [snd] in Hx. rewrite <- app_assoc, added_app in Hx.
         eapply Hall; [done|]. by repeat constructor.
       - intros s' Hp Hb He. unfold session_install, session_run.
         rewrite bind_call; cbn [fs log]. fold precommit_packages inst. rewrite Hi.
         rewrite Hp. fold (precommit_command s).
         rewrite bind_call; cbn [fs log]. fold ran. by rewrite Hr. }
  rewrite <- app_assoc. cbn [app]. fold w2.
  split; [|split].
  - intros Hh _ _. destruct (posargs s) as [|a0 rest]; [done|].
    cbn in Hh. simplify_eq. done.
  - intros [Hh|[?|?]] x Hx; [|done..].
    assert (added w
              ((match or_default (posargs s)
                        ["run"; "--all-files"; "--show-diff-on-failure"] with
                | [] => ret ()
                | a0 :: _ =>
                    if String.eqb a0 "install"
                    then activate_virtualenv_in_precommit_hooks h s
                    else ret ()
                end) w2).2
            = [(Called (Install precommit_packages), fs w);
               (Called (Run (precommit_command s)), inst.1)]) as Hadd.
    { destruct (posargs s) as [|a0 rest]; cbn.
      - unfold w2. apply (added_app w _ [_; _]).
      - destruct (String.eqb a0 "install") eqn:Ha.
        + apply String.eqb_eq in Ha. subst a0. done.
        + unfold w2. apply (added_app w _ [_; _]). }
    rewrite Hadd in Hx. eapply Hall; [done|]. by repeat constructor.
  - intros s' Hp Hb He. unfold session_install, session_run.
    rewrite bind_call; cbn [fs log]. fold precommit_packages inst. rewrite Hi.
    rewrite Hp. fold (precommit_command s).
    rewrite bind_call; cbn [fs log]. fold ran. rewrite Hr.
    rewrite <- app_assoc. cbn [app]. fold w2.
    destruct (or_default _ _) as [|a0 rest]; [done|].
    destruct (String.eqb a0 "install"); [|done].
    unfold activate_virtualenv_in_precommit_hooks. by rewrite Hb, He.
Qed.


#[local] Arguments remove_tree : simpl never.

Lemma clean_build_dir_eq (w : world) :
  clean_build_dir w =
    match fs w !! build_dir with
    | None => (Ok tt, w)
    | Some Dir =>
        (Ok tt, World (remove_tree (fs w) build_dir)
                      (log w ++ [(RemovedTree build_dir, fs w)]))
    | Some _ =>
        (Raised OSError, World (fs w) (log w ++ [(RemovedTree build_dir, fs w)]))
    end.
Proof.
  destruct w as [f l].
  unfold clean_build_dir, rmtree, bind, get_fs, emit, put_fs, raise, ret,
    exists_, is_dir. cbn [fs log].
  destruct (f !! build_dir) as [[| |]|] eqn:E; cbn [fs log]; rewrite ?E; done.
Qed.

Lemma build_dir_removed (f : filesystem) : remove_tree f build_dir !! build_dir = None.
Proof. rewrite lookup_remove_tree. by rewrite decide_True. Qed.

Lemma doc_step_apidoc (fr : filesystem) :
  doc_step (Called (Run apidoc_command), fr) = true.
Proof. reflexivity. Qed.

Ltac split_pre pre :=
  repeat (destruct pre as [|? pre]; simplify_eq/=).

Ltac no_doc_before Hpre :=
  repeat (apply Forall_cons in Hpre as [? Hpre]); simplify_eq/=.

(** C5.  In the docs-build and the docs session the build directory
    [docs/_build] is absent when the documentation commands start: it is
    removed, when it is there, after the packages are installed and
    before [sphinx-apidoc] and [sphinx-build], or [sphinx-autobuild], is
    run.  Whatever the tools do, no documentation command of either
    session starts with the directory in place; and once the packages
    are installed, the session removes a directory at [docs/_build] and
    then runs its documentation commands, the first of them in the
    filesystem without the tree at [docs/_build]. *)
Theorem build_dir_absent_before_docs (s : Session) (f : filesystem) :
  let i1 := tool h (Install ["."]) f in
  let b2 := tool h (Install ["sphinx"; "sphinx-rtd-theme"]) i1.1 in
  let d2 := tool h (Install ["sphinx"; "sphinx-autobuild"; "sphinx-rtd-theme"]) i1.1 in
  (absent_before_docs h f (log (docs_build h s (start f)).2) ∧
   absent_before_docs h f (log (docs h s (start f)).2)) ∧
  (i1.2 = true → b2.2 = true →
   ∃ d, log (docs_build h s (start f)).2
        = (Called (Install ["."]), f)
          :: (Called (Install ["sphinx"; "sphinx-rtd-theme"]), i1.1) :: d ∧
        removed_then_docs h b2.1 (docs_build_commands s) d) ∧
  (i1.2 = true → d2.2 = true →
   ∃ d, log (docs h s (start f)).2
        = (Called (Install ["."]), f)
          :: (Called (Install ["sphinx"; "sphinx-autobuild"; "sphinx-rtd-theme"]),
              i1.1) :: d ∧
        removed_then_docs h d2.1 (docs_commands s) d).
Proof.
  intros i1 b2 d2. split; [clear i1 b2 d2|split].
  {
  split.
  - unfold docs_build, session_install, session_run. fold apidoc_command.
    rewrite bind_call; cbn [fs log start app].
    destruct (tool h (Install ["."]) f) as [f1 [|]] eqn:E1; cbn [fst snd].
    2: { repeat split; intros; split_pre pre. }
    rewrite bind_call; cbn [fs log app].
    destruct (tool h (Install ["sphinx"; "sphinx-rtd-theme"]) f1) as [f2 [|]] eqn:E2;
      cbn [fst snd].
    2: { repeat split; intros; split_pre pre. }
    unfold bind at 1. rewrite clean_build_dir_eq; cbn [fs log app].
    destruct (f2 !! build_dir) as [[| |]|] eqn:E3.
    + repeat split; intros; split_pre pre.
    + rewrite bind_call; cbn [fs log app].
      destruct (tool h (Run apidoc_command) (remove_tree f2 build_dir))
        as [f4 [|]] eqn:E4; cbn [fst snd].
      * rewrite call_eq; cbn [fst snd fs log app].
        split; [|split].
        -- intros pre x post H Hx Hpre. split_pre pre.
           ++ apply build_dir_removed.
           ++ no_doc_before Hpre.
        -- intros Hinst Hf pre x post H Hx. split_pre pre.
           ++ exists f2. split; [apply list_elem_of_further, list_elem_of_further,
                list_elem_of_here|].
              rewrite E3. pose proof (Hinst ["."] f) as H1. rewrite E1 in H1.
              pose proof (Hinst ["sphinx"; "sphinx-rtd-theme"] f1) as H2.
              rewrite E2 in H2. cbn in *. congruence.
           ++ exists f2. split; [apply list_elem_of_further, list_elem_of_further,
                list_elem_of_here|].
              rewrite E3. pose proof (Hinst ["."] f) as H1. rewrite E1 in H1.
              pose proof (Hinst ["sphinx"; "sphinx-rtd-theme"] f1) as H2.
              rewrite E2 in H2. cbn in *. congruence.
        -- intros Hapi pre x post H Hx. split_pre pre.
           ++ apply build_dir_removed.
           ++ pose proof (Hapi _ (build_dir_removed f2)) as H4.
              by rewrite E4 in H4.
      * split; [|split].
        -- intros pre x post H Hx Hpre. split_pre pre. apply build_dir_removed.
        -- intros Hinst Hf pre x post H Hx. split_pre pre.
           exists f2. split; [apply list_elem_of_further, list_elem_of_further,
                list_elem_of_here|].
           rewrite E3. pose proof (Hinst ["."] f) as H1. rewrite E1 in H1.
           pose proof (Hinst ["sphinx"; "sphinx-rtd-theme"] f1) as H2.
           rewrite E2 in H2. cbn in *. congruence.
        -- intros Hapi pre x post H Hx. split_pre pre. apply build_dir_removed.
    + repeat split; intros; split_pre pre.
    + rewrite bind_call; cbn [fs log app].
      destruct (tool h (Run apidoc_command) f2) as [f4 [|]] eqn:E4; cbn [fst snd].
      * rewrite call_eq; cbn [fst snd fs log app].
        split; [|split].
        -- intros pre x post H Hx Hpre. split_pre pre; [done|no_doc_before Hpre].
        -- intros Hinst [y Hf] pre x post H Hx.
           pose proof (Hinst ["."] f) as H1. rewrite E1 in H1.
           pose proof (Hinst ["sphinx"; "sphinx-rtd-theme"] f1) as H2.
           rewrite E2 in H2. cbn in *. congruence.
        -- intros Hapi pre x post H Hx. split_pre pre; [done|].
           pose proof (Hapi _ E3) as H4. by rewrite E4 in H4.
      * split; [|split].
        -- intros pre x post H Hx Hpre. by split_pre pre.
        -- intros Hinst [y Hf] pre x post H Hx.
           pose proof (Hinst ["."] f) as H1. rewrite E1 in H1.
           pose proof (Hinst ["sphinx"; "sphinx-rtd-theme"] f1) as H2.
           rewrite E2 in H2. cbn in *. congruence.
        -- intros Hapi pre x post H Hx. by split_pre pre.
  - unfold docs, session_install, session_run.
    rewrite bind_call; cbn [fs log start app].
    destruct (tool h (Install ["."]) f) as [f1 [|]] eqn:E1; cbn [fst snd].
    2: { repeat split; intros; split_pre pre. }
    rewrite bind_call; cbn [fs log app].
    destruct (tool h (Install ["sphinx"; "sphinx-autobuild"; "sphinx-rtd-theme"]) f1)
      as [f2 [|]] eqn:E2; cbn [fst snd].
    2: { repeat split; intros; split_pre pre. }
    unfold bind at 1. rewrite clean_build_dir_eq; cbn [fs log app].
    destruct (f2 !! build_dir) as [[| |]|] eqn:E3.
    + repeat split; intros; split_pre pre.
    + rewrite call_eq; cbn [fst snd fs log app].
      split; [|split].
      * intros pre x post H Hx Hpre. split_pre pre. apply build_dir_removed.
      * intros Hinst Hf pre x post H Hx. split_pre pre.
        exists f2. split; [apply list_elem_of_further, list_elem_of_further,
                list_elem_of_here|].
        rewrite E3. pose proof (Hinst ["."] f) as H1. rewrite E1 in H1.
        pose proof (Hinst ["sphinx"; "sphinx-autobuild"; "sphinx-rtd-theme"] f1) as H2.
        rewrite E2 in H2. cbn in *. congruence.
      * intros Hapi pre x post H Hx. split_pre pre. apply build_dir_removed.
    + repeat split; intros; split_pre pre.
    + rewrite call_eq; cbn [fst snd fs log app].
      split; [|split].
      * intros pre x post H Hx Hpre. by split_pre pre.
      * intros Hinst [y Hf] pre x post H Hx.
        pose proof (Hinst ["."] f) as H1. rewrite E1 in H1.
        pose proof (Hinst ["sphinx"; "sphinx-autobuild"; "sphinx-rtd-theme"] f1) as H2.
        rewrite E2 in H2. cbn in *. congruence.
      * intros Hapi pre x post H Hx. by split_pre pre.
  }
  { intros H1 H2.
    unfold docs_build, session_install, session_run. fold apidoc_command.
    rewrite bind_call; cbn [fs log start app]. fold i1. rewrite H1.
    rewrite bind_call; cbn [fs log app]. fold b2. rewrite H2.
    unfold bind at 1. rewrite clean_build_dir_eq; cbn [fs log app].
    unfold removed_then_docs, docs_build_commands.
    destruct (b2.1 !! build_dir) as [[| |]|] eqn:Hd.
    - by eexists.
    - rewrite bind_call; cbn [fs log app run_steps].
      destruct (tool h (Run apidoc_command) (remove_tree b2.1 build_dir)).2.
      + rewrite call_eq. cbn [fs log snd app].
        eexists. split; [reflexivity|]. by destruct (tool _ _ _).2.
      + by eexists.
    - by eexists.
    - rewrite bind_call; cbn [fs log app run_steps].
      destruct (tool h (Run apidoc_command) b2.1).2.
      + rewrite call_eq. cbn [fs log snd app].
        eexists. split; [reflexivity|]. by destruct (tool _ _ _).2.
      + by eexists. }
  { intros H1 H2.
    unfold docs, session_install, session_run.
    rewrite bind_call; cbn [fs log start app]. fold i1. rewrite H1.
    rewrite bind_call; cbn [fs log app]. fold d2. rewrite H2.
    unfold bind at 1. rewrite clean_build_dir_eq; cbn [fs log app].
    unfold removed_then_docs, docs_commands.
    destruct (d2.1 !! build_dir) as [[| |]|] eqn:Hd.
    - by eexists.
    - rewrite call_eq. cbn [fs log snd app run_steps].
      eexists. split; [reflexivity|]. by destruct (tool _ _ _).2.
    - by eexists.
    - rewrite call_eq. cbn [fs log snd app run_steps].
      eexists. split; [reflexivity|]. by destruct (tool _ _ _).2. }
Qed.

End SessionClaims.

(* ===================================================================== *)
(** * The steps of a patch *)
(* ===================================================================== *)

(** For a bin directory of plain characters (printable ASCII without
    quotes and backslash) the text looked for in a hook is the bin
    directory itself. *)
Lemma bindir_of_plain (b : string) : plain b = true → slice_1_m1 (repr b) = b.
Proof.
  rewrite slice_repr.
  assert (repr_quote b = squote ∨ repr_quote b = dquote) as Hq.
  { unfold repr_quote. destruct (_ && _); auto. }
  revert Hq. generalize (repr_quote b). intros q Hq.
  induction b as [|c b IH]; [done|]. cbn [plain repr_body].
  intros [Hc Hb]%andb_true_iff. rewrite (IH Hb).
  assert (repr_char q c = str c) as ->; [|done].
  clear IH Hb. destruct Hq as [-> | ->];
    destruct c as [[] [] [] [] [] [] [] []]; try discriminate Hc; reflexivity.
Qed.

Section PatchClaim.
Import Examples.
Variable h : host.

(** C7.  For a hook that passes every guard (a regular file whose name
    does not end with [.sample], whose text passes the match on the bin
    directory and whose first line is a Python shebang), a run of the
    helper that returns reads the file once and writes it once, in that
    order; what it writes are the lines of the text joined by newlines,
    with one block inserted after the first line; the block sets
    [VIRTUAL_ENV] to the virtual environment of the session and puts the
    bin directory of the session in front of [PATH]. *)
Theorem helper_patch_steps (s : Session) (w : world)
    (b v name text first : string) (rest : list string) :
  bin s = Some b → env s !! "VIRTUAL_ENV" = Some v →
  is_dir (fs w) hookdir = true →
  endswith name ".sample" = false →
  fs w !! child hookdir name = Some (File text) →
  hook_mentions h (slice_1_m1 (repr b)) text = true →
  splitlines text = first :: rest →
  is_python_shebang first = true →
  (activate_virtualenv_in_precommit_hooks h s w).1 = Ok tt →
  let w' := (activate_virtualenv_in_precommit_hooks h s w).2 in
  let new := join (str newline) (first :: header_text v b :: rest) in
  (filter (about (child hookdir name)) (added w w')).*1
    = [ReadText (child hookdir name); WroteText (child hookdir name) new] ∧
  fs w' !! child hookdir name = Some (File new) ∧
  insert_at 1 (header v b) (splitlines text) = first :: header_text v b :: rest.
Proof.
  intros Hb Hv Hd Hs Hf Hm Hl Hsh Hok w' new.
  destruct (helper_patches h s w b v name text first rest) as [He Hn]; try done.
  fold w' in He, Hn. subst new. rewrite <- header_explicit.
  split; [done|]. split; [done|]. by rewrite Hl.
Qed.

End PatchClaim.

(* ===================================================================== *)
(** * The properties on concrete runs *)
(* ===================================================================== *)

Section Runs.
Import Examples.

Lemma helper_patch_steps_witness :
  (filter (about pre_commit_hook)
     (added (start repo)
        (activate_virtualenv_in_precommit_hooks posix_host install_session
           (start repo)).2)).*1
    = [ReadText pre_commit_hook; WroteText pre_commit_hook patched_hook_text] ∧
  fs (activate_virtualenv_in_precommit_hooks posix_host install_session
        (start repo)).2 !! pre_commit_hook
    = Some (File patched_hook_text).
Proof.
  destruct (helper_patch_steps posix_host install_session (start repo)
              "/v/bin" "/v" "pre-commit" hook_text "#!/usr/bin/env python3"
              ["INSTALL_PYTHON = '/v/bin/python'"; "main()"])
    as (He & Hn & _); try (vm_compute; reflexivity).
  split; [exact He|exact Hn].
Defined.


Lemma helper_noop_when_guard_unmet_witness :
  bin bare_session = None ∧
  activate_virtualenv_in_precommit_hooks posix_host bare_session (start repo)
    = (Ok tt, start repo).
Proof.
  split; [reflexivity|].
  apply (helper_noop_when_guard_unmet posix_host bare_session (start repo)).
  left. reflexivity.
Defined.

(** The session is not interactive, its bin directory and [VIRTUAL_ENV]
    are set and [.git/hooks] is a directory: the helper rewrites the
    hook.  So the helper is no no-op in every session that is not
    interactive. *)
Lemma helper_patches_without_terminal :
  interactive install_session = false ∧
  repo !! pre_commit_hook = Some (File hook_text) ∧
  fs (activate_virtualenv_in_precommit_hooks posix_host install_session
        (start repo)).2 !! pre_commit_hook
    = Some (File patched_hook_text) ∧
  ¬ (∀ (h : host) (s : Session) (w : world),
       interactive s = false ∨ env s !! "VIRTUAL_ENV" = None ∨
       is_dir (fs w) hookdir = false →
       activate_virtualenv_in_precommit_hooks h s w = (Ok tt, w)).
Proof.
  split; [reflexivity|]. split; [vm_compute; reflexivity|].
  split; [vm_compute; reflexivity|].
  intros H. specialize (H posix_host install_session (start repo) (or_introl eq_refl)).
  apply (f_equal (λ r, length (log r.2))) in H.
  vm_compute in H. discriminate H.
Qed.

Lemma helper_writes_only_python_scripts_witness :
  fs (activate_virtualenv_in_precommit_hooks posix_host install_session
        (start repo)).2 !! pre_push_hook
    = Some (File shell_hook_text).
Proof.
  destruct (helper_writes_only_python_scripts posix_host install_session
              (start repo) pre_push_hook) as [_ H].
  destruct H as [H _].
  - intros text Ht. vm_compute in Ht. injection Ht as <-. vm_compute. reflexivity.
  - rewrite H. vm_compute. reflexivity.
Defined.

Lemma helper_skips_samples_and_non_files_witness :
  endswith "pre-commit.sample" ".sample" = true ∧
  fs (activate_virtualenv_in_precommit_hooks posix_host install_session
        (start repo)).2 !! sample_hook
    = Some (File hook_text).
Proof.
  split; [vm_compute; reflexivity|].
  destruct (helper_skips_samples_and_non_files posix_host install_session
              (start repo) "pre-commit.sample") as [_ H].
  - left. vm_compute. reflexivity.
  - change (child hookdir "pre-commit.sample") with sample_hook in H.
    rewrite H. vm_compute. reflexivity.
Defined.

Lemma first_line_in_bounds_witness :
  (activate_virtualenv_in_precommit_hooks posix_host install_session
     (start repo)).1 = Ok tt.
Proof.
  apply (first_line_in_bounds posix_host install_session (start repo) "/v/bin").
  - reflexivity.
  - discriminate.
Defined.

(** With an empty bin directory the premise of [first_line_in_bounds]
    fails, and an empty hook file makes [lines[0]] raise. *)
Example empty_bin_directory_raises :
  (activate_virtualenv_in_precommit_hooks posix_host empty_bin_session
     (start empty_hook_repo)).1 = Raised IndexError.
Proof. vm_compute. reflexivity. Qed.

Lemma hook_match_depends_on_host_witness :
  contains "/v/bin" shouting_hook_text = false ∧
  ∃ new fr,
    (WroteText pre_commit_hook new, fr)
      ∈ added (start shouting_repo)
          (activate_virtualenv_in_precommit_hooks nocase_host install_session
             (start shouting_repo)).2 ∧
    fs (activate_virtualenv_in_precommit_hooks nocase_host install_session
          (start shouting_repo)).2 !! pre_commit_hook = Some (File new).
Proof.
  split; [vm_compute; reflexivity|].
  destruct (hook_match_depends_on_host nocase_host install_session
              (start shouting_repo) "/v/bin" eq_refl) as [_ H].
  destruct (H eq_refl) as [_ H2].
  apply (H2 "/v" "pre-commit" shouting_hook_text "#!/usr/bin/env python3"
            ["INSTALL_PYTHON = '/V/BIN/python'"]); vm_compute; reflexivity.
Defined.

(** On a host whose paths distinguish case the same hook is left alone. *)
Example shouting_hook_untouched_on_posix :
  (log (activate_virtualenv_in_precommit_hooks posix_host install_session
          (start shouting_repo)).2).*1 = [ReadText pre_commit_hook].
Proof. vm_compute. reflexivity. Qed.

Lemma tests_notify_coverage_witness :
  (tests failing_host plain_session (start ∅)).1 = Raised CommandFailed ∧
  last (log (tests failing_host plain_session (start ∅)).2)
    = Some (Notified "coverage", ∅).
Proof.
  destruct (tests_notify_coverage failing_host plain_session (start ∅))
    as (_ & H & _).
  destruct (H eq_refl
              [(Called (Install ["."]), ∅);
               (Called (Install ["coverage[toml]"]), ∅);
               (Called (Install pytest_deps), ∅)]
              ∅ [(Notified "coverage", ∅)]) as [_ Hr].
  - vm_compute. reflexivity.
  - split; [exact Hr|]. vm_compute. reflexivity.
Defined.

(** The test command is invoked in a session that is not interactive,
    whether it succeeds or fails, and nothing is notified. *)
Lemma tests_without_terminal_notify_nothing :
  interactive install_session = false ∧
  (log (tests posix_host install_session (start ∅)).2).*1
    = [Called (Install ["."]);
       Called (Install ["coverage[toml]"]);
       Called (Install pytest_deps);
       Called (Run (test_command install_session))] ∧
  (log (tests failing_host install_session (start ∅)).2).*1
    = [Called (Install ["."]);
       Called (Install ["coverage[toml]"]);
       Called (Install pytest_deps);
       Called (Run (test_command install_session))] ∧
  ¬ (∀ (h : host) (s : Session) (f : filesystem) pre fr post,
       log (tests h s (start f)).2
         = pre ++ (Called (Run (test_command s)), fr) :: post →
       ∃ fn, (Notified "coverage", fn) ∈ post).
Proof.
  split; [reflexivity|]. split; [vm_compute; reflexivity|].
  split; [vm_compute; reflexivity|].
  intros H.
  destruct (H posix_host install_session ∅
              [(Called (Install ["."]), ∅);
               (Called (Install ["coverage[toml]"]), ∅);
               (Called (Install pytest_deps), ∅)] ∅ [])
    as [fn Hfn].
  - vm_compute. reflexivity.
  - by apply elem_of_nil in Hfn.
Qed.

Lemma coverage_commands_witness :
  commands_run (log (coverage posix_host plain_session (start repo)).2)
    = [["coverage"; "combine"]; ["coverage"; "report"]] ∧
  commands_run (log (coverage posix_host install_session (start repo)).2)
    = [["coverage"; "install"]].
Proof.
  split.
  - destruct (coverage_commands posix_host plain_session repo eq_refl
                (λ _ _, eq_refl)) as (_ & _ & H & _).
    rewrite H. vm_compute. reflexivity.
  - destruct (coverage_commands posix_host install_session repo eq_refl
                (λ _ _, eq_refl)) as (_ & _ & _ & H).
    apply H. vm_compute. reflexivity.
Defined.

Lemma precommit_calls_helper_witness :
  fs (precommit posix_host install_session (start repo)).2 !! pre_commit_hook
    = Some (File patched_hook_text) ∧
  ∀ x, x ∈ added (start repo) (precommit posix_host plain_session (start repo)).2 →
       ¬ file_step x.
Proof.
  split.
  - destruct (precommit_calls_helper posix_host install_session (start repo))
      as (H & _ & _).
    rewrite (H eq_refl eq_refl eq_refl). vm_compute. reflexivity.
  - destruct (precommit_calls_helper posix_host plain_session (start repo))
      as (_ & H & _).
    apply H. left. vm_compute. discriminate.
Defined.

(** The pre-commit session is given [install] without a terminal, and
    the hook is rewritten.  So hooks are rewritten outside the
    invocations that are both [install] and interactive. *)
Lemma precommit_patches_without_terminal :
  interactive install_session = false ∧
  posargs install_session = ["install"] ∧
  repo !! pre_commit_hook = Some (File hook_text) ∧
  fs (precommit posix_host install_session (start repo)).2 !! pre_commit_hook
    = Some (File patched_hook_text) ∧
  (log (precommit posix_host install_session (start repo)).2).*1
    = [Called (Install precommit_packages);
       Called (Run ["pre-commit"; "install"]);
       ReadText pre_commit_hook;
       WroteText pre_commit_hook patched_hook_text;
       ReadText pre_push_hook] ∧
  ¬ (∀ (h : host) (s : Session) (w : world),
       ¬ (head (posargs s) = Some "install" ∧ interactive s = true) →
       ∀ t, WroteText pre_commit_hook t ∉ (added w (precommit h s w).2).*1).
Proof.
  split; [reflexivity|]. split; [reflexivity|].
  split; [vm_compute; reflexivity|]. split; [vm_compute; reflexivity|].
  split; [vm_compute; reflexivity|].
  intros H.
  apply (H posix_host install_session (start repo)) with (t := patched_hook_text).
  - intros [_ Hi]. discriminate Hi.
  - assert (added (start repo) (precommit posix_host install_session (start repo)).2
            = log (precommit posix_host install_session (start repo)).2) as ->.
    { unfold added. reflexivity. }
    apply list_elem_of_lookup. exists 3. vm_compute. reflexivity.
Qed.

Lemma build_dir_absent_before_docs_witness :
  is_Some (repo !! build_dir) ∧
  (∀ pre x post,
     log (docs_build posix_host plain_session (start repo)).2 = pre ++ x :: post →
     doc_step x = true →
     x.2 !! build_dir = None ∧ ∃ fr, (RemovedTree build_dir, fr) ∈ pre) ∧
  (∃ d, log (docs_build posix_host plain_session (start repo)).2
        = (Called (Install ["."]), repo)
          :: (Called (Install ["sphinx"; "sphinx-rtd-theme"]), repo) :: d ∧
        removed_then_docs posix_host repo (docs_build_commands plain_session) d) ∧
  (∃ d, log (docs posix_host plain_session (start repo)).2
        = (Called (Install ["."]), repo)
          :: (Called (Install ["sphinx"; "sphinx-autobuild"; "sphinx-rtd-theme"]),
              repo) :: d ∧
        removed_then_docs posix_host repo (docs_commands plain_session) d).
Proof.
  assert (is_Some (repo !! build_dir)) as Hsome.
  { exists Dir. vm_compute. reflexivity. }
  split; [exact Hsome|].
  destruct (build_dir_absent_before_docs posix_host plain_session repo)
    as [[(_ & B & C) _] [Hb Hd]].
  split; [|split].
  - intros pre x post Hl Hx. split.
    + apply (C (λ fx H, H) pre x post Hl Hx).
    + destruct (B (λ pkgs fx, eq_refl) Hsome pre x post Hl Hx) as (fr & Hin & _).
      exists fr. exact Hin.
  - apply Hb; reflexivity.
  - apply Hd; reflexivity.
Defined.

(** The log of the docs-build session on the sample checkout. *)
Example docs_build_log :
  (log (docs_build posix_host plain_session (start repo)).2).*1
    = [Called (Install ["."]);
       Called (Install ["sphinx"; "sphinx-rtd-theme"]);
       RemovedTree build_dir;
       Called (Run apidoc_command);
       Called (Run ["sphinx-build"; "docs"; "docs/_build"])].
Proof. vm_compute. reflexivity. Qed.

End Runs.

(* ===================================================================== *)
(** * Every session: failures and steps *)
(* ===================================================================== *)

Lemma split_app_cons {A} (d1 d2 pre post : list A) (x : A) :
  d1 ++ d2 = pre ++ x :: post →
  (∃ k, d1 = pre ++ x :: k ∧ post = k ++ d2) ∨
  (∃ k, pre = d1 ++ k ∧ d2 = k ++ x :: post).
Proof.
  revert pre. induction d1 as [|y d1 IH]; intros pre H.
  - right. exists pre. done.
  - destruct pre as [|z pre]; cbn in H; injection H as -> H.
    + left. by exists d1.
    + destruct (IH pre H) as [(k & -> & ->)|(k & -> & ->)].
      * left. by exists k.
      * right. by exists k.
Qed.

Section Orderly.
Variable h : host.

(** A computation that calls no tool and does not raise [CommandFailed]. *)
Lemma sf_quiet {A} (m : M A) :
  (∀ w, ∃ d, log (m w).2 = log w ++ d ∧ (∀ y, y ∈ d → ¬ is_call y) ∧
             (m w).1 ≠ Raised CommandFailed) →
  stops_at_failure h m.
Proof.
  intros Hm w. destruct (Hm w) as (d & Hl & Hc & Hr). exists d.
  split; [done|]. split; [|done].
  intros pre x post -> (a & Ha & _). exfalso. apply (Hc x).
  - apply elem_of_app. right. apply list_elem_of_here.
  - by exists a.
Qed.

Lemma sf_ret {A} (a : A) : stops_at_failure h (ret a).
Proof.
  apply sf_quiet. intros w. exists []. rewrite app_nil_r.
  split; [done|]. split; [by intros y ?%elem_of_nil|done].
Qed.

Lemma sf_raise {A} (e : exn) : e ≠ CommandFailed → stops_at_failure h (@raise A e).
Proof.
  intros He. apply sf_quiet. intros w. exists []. rewrite app_nil_r.
  split; [done|]. split; [by intros y ?%elem_of_nil|]. cbn. congruence.
Qed.

Lemma sf_get_fs : stops_at_failure h get_fs.
Proof.
  apply sf_quiet. intros w. exists []. rewrite app_nil_r.
  split; [done|]. split; [by intros y ?%elem_of_nil|done].
Qed.

Lemma sf_put_fs (f : filesystem) : stops_at_failure h (put_fs f).
Proof.
  apply sf_quiet. intros w. exists []. rewrite app_nil_r.
  split; [done|]. split; [by intros y ?%elem_of_nil|done].
Qed.

Lemma sf_emit (e : event) : (∀ a, e ≠ Called a) → stops_at_failure h (emit e).
Proof.
  intros He. apply sf_quiet. intros w. exists [(e, fs w)].
  split; [done|]. split; [|done].
  intros y ->%list_elem_of_singleton (a & Ha). by apply (He a).
Qed.

Lemma sf_call (a : action) : stops_at_failure h (call h a).
Proof.
  intros w. rewrite call_eq. exists [(Called a, fs w)]. cbn [fst snd log].
  split; [done|]. split.
  - intros pre x post Hd (a' & Ha' & Hf).
    destruct pre as [|? [|? ?]]; simplify_eq/=.
    rewrite Hf. split; [done|]. by intros y ?%elem_of_nil.
  - intros Hr. exists (Called a, fs w). split; [apply list_elem_of_here|].
    exists a. split; [done|]. cbn. by destruct (tool h a (fs w)).2.
Qed.

Lemma sf_bind {A B} (m : M A) (k : A → M B) :
  stops_at_failure h m → (∀ a, stops_at_failure h (k a)) →
  stops_at_failure h (bind m k).
Proof.
  intros Hm Hk w. destruct (Hm w) as (d1 & Hl1 & Hf1 & Hr1). unfold bind.
  destruct (m w) as [[a|e] w1] eqn:E; cbn [fst snd] in *.
  - destruct (Hk a w1) as (d2 & Hl2 & Hf2 & Hr2).
    exists (d1 ++ d2). split; [by rewrite Hl2, Hl1, app_assoc|]. split.
    + intros pre x post Hd Hx.
      destruct (split_app_cons _ _ _ _ _ Hd) as [(k' & -> & ->)|(k' & -> & ->)].
      * by destruct (Hf1 _ _ _ eq_refl Hx).
      * by apply (Hf2 _ _ _ eq_refl Hx).
    + intros Hr. destruct (Hr2 Hr) as (x & Hx & Hfx). exists x.
      split; [|done]. apply elem_of_app. by right.
  - exists d1. split; [done|]. split.
    + intros pre x post Hd Hx. destruct (Hf1 _ _ _ Hd Hx) as [Hr Hp].
      injection Hr as ->. done.
    + intros Hr. injection Hr as ->. by apply Hr1.
Qed.

Lemma sf_try_finally {A} (body : M A) (final : M unit) :
  stops_at_failure h body →
  (∀ w, ∃ d, final w = (Ok tt, World (fs w) (log w ++ d)) ∧
             ∀ y, y ∈ d → ¬ is_call y) →
  stops_at_failure h (try_finally body final).
Proof.
  intros Hb Hf w. destruct (Hb w) as (d1 & Hl1 & Hf1 & Hr1). unfold try_finally.
  destruct (body w) as [r w1] eqn:E; cbn [fst snd] in *.
  destruct (Hf w1) as (d2 & -> & Hc2). cbn [fst snd log].
  exists (d1 ++ d2). split; [by rewrite Hl1, app_assoc|]. split.
  - intros pre x post Hd Hx.
    destruct (split_app_cons _ _ _ _ _ Hd) as [(k' & -> & ->)|(k' & -> & ->)].
    + destruct (Hf1 _ _ _ eq_refl Hx) as [Hr Hp]. split; [done|].
      intros y [Hy|Hy]%elem_of_app; [by apply Hp|by apply Hc2].
    + exfalso. destruct Hx as (a & Ha & _). apply (Hc2 x).
      * apply elem_of_app. right. apply list_elem_of_here.
      * by exists a.
  - intros Hr. destruct (Hr1 Hr) as (x & Hx & Hfx). exists x.
    split; [|done]. apply elem_of_app. by left.
Qed.

Lemma sf_for_each {A} (xs : list A) (body : A → M unit) :
  (∀ x, stops_at_failure h (body x)) → stops_at_failure h (for_each xs body).
Proof.
  intros Hb. induction xs as [|x xs IH]; cbn [for_each].
  - apply sf_ret.
  - apply sf_bind; [apply Hb|intros _; apply IH].
Qed.

Ltac sf_step :=
  first
    [ apply sf_ret | apply sf_get_fs | apply sf_put_fs | apply sf_call
    | apply sf_raise; discriminate
    | apply sf_emit; intros ?; discriminate
    | apply sf_bind; [|intros ?]
    | apply sf_for_each; intros ?
    | match goal with
      | |- stops_at_failure _ (if ?b then _ else _) => destruct b
      | |- stops_at_failure _ (match ?x with _ => _ end) => destruct x
      end ].

Lemma sf_helper (s : Session) :
  stops_at_failure h (activate_virtualenv_in_precommit_hooks h s).
Proof.
  unfold activate_virtualenv_in_precommit_hooks, patch_hook, read_text, write_text.
  repeat sf_step.
Qed.

Lemma sf_clean_build_dir : stops_at_failure h clean_build_dir.
Proof. unfold clean_build_dir, rmtree. repeat sf_step. Qed.

(** X1.  No session retries or goes on after a failed command: in the
    log of every session a tool call that failed is followed by no
    further tool call, and the session raises [CommandFailed]; it raises
    [CommandFailed] only when a logged tool call failed. *)
Theorem sessions_stop_at_first_failure (s : Session) (sys_executable : string) :
  stops_at_failure h (precommit h s) ∧
  stops_at_failure h (mypy h sys_executable s) ∧
  stops_at_failure h (tests h s) ∧
  stops_at_failure h (coverage h s) ∧
  stops_at_failure h (typeguard h s) ∧
  stops_at_failure h (xdoctest h s) ∧
  stops_at_failure h (docs_build h s) ∧
  stops_at_failure h (docs h s).
Proof.
  repeat split.
  - unfold precommit, session_install, session_run. cbv zeta.
    do 2 (apply sf_bind; [apply sf_call|intros _]).
    destruct (or_default _ _) as [|a0 ?]; [apply sf_ret|].
    destruct (String.eqb a0 "install"); [apply sf_helper|apply sf_ret].
  - unfold mypy, session_install, session_run. cbv zeta. repeat sf_step.
  - unfold tests, session_install, session_run, session_notify.
    do 3 (apply sf_bind; [apply sf_call|intros _]).
    apply sf_try_finally; [apply sf_call|]. intros w.
    destruct (interactive s).
    + exists [(Notified "coverage", fs w)]. split; [done|].
      intros y ->%list_elem_of_singleton (a & Ha). discriminate Ha.
    + exists []. rewrite app_nil_r. split; [by destruct w|].
      by intros y ?%elem_of_nil.
  - unfold coverage, session_install, session_run. cbv zeta. repeat sf_step.
  - unfold typeguard, session_install, session_run. repeat sf_step.
  - unfold xdoctest, session_install, session_run. cbv zeta. repeat sf_step.
  - unfold docs_build, session_install, session_run. cbv zeta.
    do 2 (apply sf_bind; [apply sf_call|intros _]).
    apply sf_bind; [apply sf_clean_build_dir|intros _]. repeat sf_step.
  - unfold docs, session_install, session_run. cbv zeta.
    do 2 (apply sf_bind; [apply sf_call|intros _]).
    apply sf_bind; [apply sf_clean_build_dir|intros _]. repeat sf_step.
Qed.

End Orderly.

Section Steps.
Variable h : host.
Variable P : event → Prop.

Lemma so_silent {A} (m : M A) :
  (∀ w, log (m w).2 = log w) → steps_only P m.
Proof.
  intros Hm w. exists []. rewrite app_nil_r. split; [apply Hm|].
  by intros x ?%elem_of_nil.
Qed.

Lemma so_emit (e : event) : P e → steps_only P (emit e).
Proof.
  intros He w. exists [(e, fs w)]. split; [done|].
  by intros x ->%list_elem_of_singleton.
Qed.

Lemma so_call (a : action) : P (Called a) → steps_only P (call h a).
Proof.
  intros Ha w. rewrite call_eq. exists [(Called a, fs w)]. split; [done|].
  by intros x ->%list_elem_of_singleton.
Qed.

Lemma so_bind {A B} (m : M A) (k : A → M B) :
  steps_only P m → (∀ a, steps_only P (k a)) → steps_only P (bind m k).
Proof.
  intros Hm Hk w. destruct (Hm w) as (d1 & Hl1 & Hp1). unfold bind.
  destruct (m w) as [[a|e] w1]; cbn [fst snd] in *.
  - destruct (Hk a w1) as (d2 & Hl2 & Hp2). exists (d1 ++ d2).
    split; [by rewrite Hl2, Hl1, app_assoc|].
    intros x [Hx|Hx]%elem_of_app; auto.
  - by exists d1.
Qed.

Lemma so_try_finally {A} (body : M A) (final : M unit) :
  steps_only P body → steps_only P final → steps_only P (try_finally body final).
Proof.
  intros Hb Hf w. destruct (Hb w) as (d1 & Hl1 & Hp1). unfold try_finally.
  destruct (body w) as [r w1]; cbn [fst snd] in *.
  destruct (Hf w1) as (d2 & Hl2 & Hp2).
  exists (d1 ++ d2). split.
  - destruct (final w1) as [[[]|e] w2]; cbn [fst snd] in *;
      by rewrite Hl2, Hl1, app_assoc.
  - intros x [Hx|Hx]%elem_of_app; auto.
Qed.

Lemma so_for_each {A} (xs : list A) (body : A → M unit) :
  (∀ x, steps_only P (body x)) → steps_only P (for_each xs body).
Proof.
  intros Hb. induction xs as [|x xs IH]; cbn [for_each].
  - by apply so_silent.
  - apply so_bind; [apply Hb|intros _; apply IH].
Qed.

End Steps.

Ltac so_step :=
  first
    [ apply so_silent; reflexivity
    | apply so_bind; [|intros ?]
    | apply so_for_each; intros ?
    | apply so_try_finally
    | match goal with
      | |- steps_only _ (if ?b then _ else _) => destruct b
      | |- steps_only _ (match ?x with _ => _ end) => destruct x
      end ].

Section Touch.
Variable h : host.

Lemma so_helper (s : Session) :
  steps_only precommit_step_kind (activate_virtualenv_in_precommit_hooks h s).
Proof.
  unfold activate_virtualenv_in_precommit_hooks, patch_hook, read_text, write_text.
  repeat first
    [ apply so_emit; right; left; by eexists
    | apply so_emit; right; right; by eexists _, _
    | so_step ].
Qed.

(** X2.  What the sessions do themselves: the mypy, coverage, typeguard
    and xdoctest sessions only call tools; the tests session calls tools
    and notifies the coverage session; the documentation sessions call
    tools and remove [docs/_build]; the pre-commit session calls tools
    and reads and writes entries of [.git/hooks]. *)
Theorem what_sessions_do (s : Session) (sys_executable : string) :
  steps_only tool_step (mypy h sys_executable s) ∧
  steps_only tool_step (coverage h s) ∧
  steps_only tool_step (typeguard h s) ∧
  steps_only tool_step (xdoctest h s) ∧
  steps_only (λ e, tool_step e ∨ e = Notified "coverage") (tests h s) ∧
  steps_only docs_step_kind (docs_build h s) ∧
  steps_only docs_step_kind (docs h s) ∧
  steps_only precommit_step_kind (precommit h s).
Proof.
  repeat split.
  - unfold mypy, session_install, session_run. cbv zeta.
    repeat first [apply so_call; by eexists | so_step].
  - unfold coverage, session_install, session_run. cbv zeta.
    repeat first [apply so_call; by eexists | so_step].
  - unfold typeguard, session_install, session_run.
    repeat first [apply so_call; by eexists | so_step].
  - unfold xdoctest, session_install, session_run. cbv zeta.
    repeat first [apply so_call; by eexists | so_step].
  - unfold tests, session_install, session_run, session_notify.
    repeat first [apply so_call; left; by eexists
                 | apply so_emit; by right | so_step].
  - unfold docs_build, clean_build_dir, rmtree, session_install, session_run.
    cbv zeta.
    repeat first [apply so_call; left; by eexists
                 | apply so_emit; by right | so_step].
  - unfold docs, clean_build_dir, rmtree, session_install, session_run.
    cbv zeta.
    repeat first [apply so_call; left; by eexists
                 | apply so_emit; by right | so_step].
  - unfold precommit, session_install, session_run. cbv zeta.
    do 2 (apply so_bind; [apply so_call; left; by eexists|intros _]).
    destruct (or_default _ _) as [|a0 ?]; [by apply so_silent|].
    destruct (String.eqb a0 "install"); [apply so_helper|by apply so_silent].
Qed.

End Touch.

(* ===================================================================== *)
(** * Lines *)
(* ===================================================================== *)

Lemma splitlines_eq (c : ascii) (tl : string) :
  splitlines (String c tl) =
    if is_linebreak c then
      match tl with
      | String c2 tl2 =>
          if (code c =? 13) && (code c2 =? 10)
          then "" :: splitlines tl2
          else "" :: splitlines tl
      | "" => "" :: splitlines tl
      end
    else
      match splitlines tl with
      | [] => [str c]
      | l :: ls => String c l :: ls
      end.
Proof. reflexivity. Qed.

Lemma linefree_app (s t : string) :
  linefree (s +:+ t) = linefree s && linefree t.
Proof.
  induction s as [|c s IH]; [done|].
  rewrite append_cons. cbn [linefree]. by rewrite IH, andb_assoc.
Qed.

Lemma splitlines_newline (t : string) :
  splitlines (str newline +:+ t) = "" :: splitlines t.
Proof. by destruct t. Qed.

(** A prefix without line boundary joins the first line of the rest. *)
Lemma splitlines_app (s t : string) :
  linefree s = true →
  splitlines (s +:+ t) =
    match splitlines t with
    | l :: ls => (s +:+ l) :: ls
    | [] => match s with "" => [] | _ => [s] end
    end.
Proof.
  induction s as [|c s IH].
  - intros _. rewrite append_nil_l. by destruct (splitlines t).
  - rewrite append_cons. cbn [linefree].
    intros [Hc Hs]%andb_true_iff. apply negb_true_iff in Hc.
    rewrite splitlines_eq, Hc, (IH Hs).
    destruct (splitlines t) as [|l ls]; [|done]. by destruct s.
Qed.

Lemma splitlines_line (l t : string) :
  linefree l = true →
  splitlines (l +:+ str newline +:+ t) = l :: splitlines t.
Proof.
  intros Hl. rewrite (splitlines_app l _ Hl), splitlines_newline.
  by rewrite append_nil_r.
Qed.

Lemma splitlines_single (l : string) :
  linefree l = true → l ≠ "" → splitlines l = [l].
Proof.
  intros Hl Hne. rewrite <- (append_nil_r l) at 1.
  rewrite (splitlines_app l "" Hl). by destruct l.
Qed.

Lemma splitlines_linefree (s : string) :
  Forall (λ l, linefree l = true) (splitlines s).
Proof.
  assert (∀ n s, String.length s ≤ n →
            Forall (λ l, linefree l = true) (splitlines s)) as H.
  { clear s. induction n as [|n IH]; intros s Hs.
    { destruct s; [constructor|cbn in Hs; lia]. }
    destruct s as [|c tl]; [constructor|]. cbn in Hs.
    rewrite splitlines_eq. destruct (is_linebreak c) eqn:Hc.
    - destruct tl as [|c2 tl2]; [by repeat constructor|].
      cbn in Hs. destruct (_ && _); constructor; try done; apply IH; cbn; lia.
    - assert (Forall (λ l, linefree l = true) (splitlines tl)) as Htl.
      { apply IH. lia. }
      destruct (splitlines tl) as [|l ls].
      + repeat constructor. cbn. by rewrite Hc.
      + apply Forall_cons in Htl as [Hl Hls]. constructor; [|done].
        cbn. by rewrite Hc, Hl. }
  by apply (H (String.length s)).
Qed.

Lemma splitlines_join_eq (ls : list string) :
  Forall (λ l, linefree l = true) ls →
  splitlines (join (str newline) ls)
    = match last ls with
      | Some "" => removelast ls
      | _ => ls
      end.
Proof.
  induction ls as [|l [|l2 rest] IH]; intros Hls.
  - done.
  - apply Forall_cons in Hls as [Hl _]. cbn [join last removelast].
    destruct l as [|c l]; [done|]. by apply splitlines_single.
  - apply Forall_cons in Hls as [Hl Hls].
    change (join (str newline) (l :: l2 :: rest))
      with (l +:+ str newline +:+ join (str newline) (l2 :: rest)).
    rewrite (splitlines_line _ _ Hl), (IH Hls).
    change (last (l :: l2 :: rest)) with (last (l2 :: rest)).
    change (removelast (l :: l2 :: rest)) with (l :: removelast (l2 :: rest)).
    by destruct (last (l2 :: rest)) as [[|??]|].
Qed.

(** X3.  The lines [splitlines] gives contain no line boundary, and the
    empty text is the only text without a line. *)
Theorem splitlines_lines (s : string) :
  Forall (λ l, linefree l = true) (splitlines s) ∧
  (splitlines s = [] ↔ s = "").
Proof.
  split; [apply splitlines_linefree|].
  split; [|by intros ->].
  intros Hs. destruct s as [|c tl]; [done|].
  by destruct (splitlines_nonempty (String c tl)).
Qed.

(** X4.  Joining the lines of a text by newlines and splitting again
    gives the same lines, except that a last line that is empty is
    lost: what the helper writes back has the lines it read. *)
Theorem splitlines_join (text : string) :
  splitlines (join (str newline) (splitlines text))
    = match last (splitlines text) with
      | Some "" => removelast (splitlines text)
      | _ => splitlines text
      end.
Proof. apply splitlines_join_eq, splitlines_linefree. Qed.

Lemma repr_char_linefree (q c : ascii) :
  q = squote ∨ q = dquote → linefree (repr_char q c) = true.
Proof.
  intros Hq. unfold repr_char.
  destruct (Ascii.eqb c q || Ascii.eqb c backslash) eqn:E.
  - apply orb_true_iff in E as [E|E]; apply Ascii.eqb_eq in E; subst c; [|done].
    by destruct Hq as [-> | ->].
  - clear E. destruct c as [[] [] [] [] [] [] [] []]; vm_compute; reflexivity.
Qed.

Lemma repr_linefree (s : string) : linefree (repr s) = true.
Proof.
  unfold repr.
  assert (repr_quote s = squote ∨ repr_quote s = dquote) as Hq.
  { unfold repr_quote. destruct (_ && _); auto. }
  revert Hq. generalize (repr_quote s). intros q Hq.
  cbn [linefree]. rewrite linefree_app.
  assert (linefree (repr_body q s) = true) as ->.
  { induction s as [|c s IH]; [done|]. cbn [repr_body].
    by rewrite linefree_app, repr_char_linefree, IH. }
  by destruct Hq as [-> | ->].
Qed.

Lemma header_lines_then (v b X : string) :
  splitlines (header_text v b +:+ X) = header_lines v b ++ splitlines X.
Proof.
  unfold header_text. rewrite !append_assoc.
  repeat first
    [ rewrite splitlines_newline
    | rewrite splitlines_app by
        (lazymatch goal with
         | |- linefree (repr _) = true => apply repr_linefree
         | _ => reflexivity
         end) ].
  cbv [header_lines app]. by rewrite !append_nil_r.
Qed.

(** X5.  Whatever the virtual environment and the bin directory are,
    the header has the same six lines: [repr] escapes every line
    boundary, so a path cannot add a line to a hook. *)
Theorem header_is_six_lines (v b : string) :
  splitlines (header v b) = header_lines v b ∧
  Forall (λ l, linefree l = true) (header_lines v b).
Proof.
  assert (splitlines (header v b) = header_lines v b) as H.
  { rewrite header_explicit, <- (append_nil_r (header_text v b)).
    rewrite header_lines_then. apply app_nil_r. }
  split; [done|]. rewrite <- H. apply splitlines_linefree.
Qed.

Lemma patched_lines (first : string) (rest : list string) (v b : string) :
  linefree first = true → Forall (λ l, linefree l = true) rest →
  splitlines (join (str newline) (first :: header_text v b :: rest))
    = first :: header_lines v b ++ lines_after_header rest.
Proof.
  intros Hf Hr.
  change (join (str newline) (first :: header_text v b :: rest))
    with (first +:+ str newline +:+ join (str newline) (header_text v b :: rest)).
  rewrite (splitlines_line _ _ Hf). f_equal.
  destruct rest as [|r rs].
  - change (join (str newline) [header_text v b]) with (header_text v b).
    rewrite <- (append_nil_r (header_text v b)), header_lines_then. done.
  - change (join (str newline) (header_text v b :: r :: rs))
      with (header_text v b +:+ str newline +:+ join (str newline) (r :: rs)).
    rewrite header_lines_then, splitlines_newline, (splitlines_join_eq _ Hr).
    done.
Qed.

(** X6.  The lines of a patched hook are the first line of the hook,
    the six lines of the header, and, when the hook had more lines, an
    empty line and the other lines in their order (a last line that is
    empty is lost). *)
Theorem patched_hook_lines (text first : string) (rest : list string) (v b : string) :
  splitlines text = first :: rest →
  splitlines (join (str newline) (insert_at 1 (header v b) (splitlines text)))
    = first :: header_lines v b ++ lines_after_header rest.
Proof.
  intros Hl. pose proof (splitlines_linefree text) as Hfree.
  rewrite Hl in *. apply Forall_cons in Hfree as [Hf Hr].
  cbn [insert_at take drop app]. rewrite header_explicit.
  by apply patched_lines.
Qed.

(* ===================================================================== *)
(** * More on the hook-patching helper *)
(* ===================================================================== *)

Lemma startswith_app (s t p : string) :
  startswith s p = true → startswith (s +:+ t) p = true.
Proof.
  revert s. induction p as [|a p IH]; intros s.
  { intros _. by destruct (s +:+ t). }
  destruct s as [|c s]; [done|]. rewrite append_cons. cbn [startswith].
  intros [Hc Hs]%andb_true_iff. by rewrite Hc, (IH s Hs).
Qed.

Lemma startswith_self_app (p t : string) : startswith (p +:+ t) p = true.
Proof.
  induction p as [|a p IH]; [by destruct t|].
  rewrite append_cons. cbn [startswith]. by rewrite Ascii.eqb_refl, IH.
Qed.

Lemma contains_app_l (n s t : string) :
  contains n s = true → contains n (s +:+ t) = true.
Proof.
  induction s as [|c s IH].
  - destruct n; [by destruct t|done].
  - rewrite append_cons. cbn [contains].
    intros [H|H]%orb_true_iff; apply orb_true_iff.
    + left. by apply (startswith_app (String c s) t n).
    + right. by apply IH.
Qed.

Lemma contains_app_r (n s t : string) :
  contains n t = true → contains n (s +:+ t) = true.
Proof.
  intros H. induction s as [|c s IH]; [done|].
  rewrite append_cons. cbn [contains]. rewrite IH. apply orb_true_r.
Qed.

(** The text looked for in a hook occurs in the [repr] of the bin
    directory, hence in the header. *)
Lemma contains_bindir_repr (b : string) :
  contains (slice_1_m1 (repr b)) (repr b) = true.
Proof.
  rewrite slice_repr. unfold repr. cbn [contains].
  apply orb_true_iff. right. apply contains_app_l.
  destruct (repr_body (repr_quote b) b) as [|c r] eqn:E; [done|].
  cbn [contains]. apply orb_true_iff. left.
  rewrite <- (append_nil_r (String c r)) at 1. apply startswith_self_app.
Qed.

Lemma contains_bindir_header (v b : string) :
  contains (slice_1_m1 (repr b)) (header_text v b) = true.
Proof.
  unfold header_text.
  do 16 apply contains_app_r. apply contains_app_l, contains_bindir_repr.
Qed.

Section HelperMore.
Import Examples.
Variable h : host.

(** X8.  For a bin directory of printable ASCII characters without
    quotes and backslash, the text looked for in the hooks is the bin
    directory itself, and on a host whose paths distinguish case a hook
    passes the match exactly when its text contains the bin
    directory. *)
Theorem plain_bin_directory_sought_as_is (b text : string) :
  plain b = true →
  slice_1_m1 (repr b) = b ∧
  (path_ignores_case h = false →
     hook_mentions h (slice_1_m1 (repr b)) text = contains b text).
Proof.
  intros Hb. rewrite (bindir_of_plain b Hb). split; [done|].
  intros Hci. unfold hook_mentions. by rewrite Hci.
Qed.

(** The kind of every path is kept by the helper. *)
Lemma helper_keeps_kinds (s : Session) (w : world) (p : path) :
  let w' := (activate_virtualenv_in_precommit_hooks h s w).2 in
  is_file (fs w') p = is_file (fs w) p ∧
  is_dir (fs w') p = is_dir (fs w) p ∧
  exists_ (fs w') p = exists_ (fs w) p.
Proof.
  intros w'. unfold is_file, is_dir, exists_.
  destruct (helper_at_path h s w p) as [[Hf _]|(b & v & n & _ & _ & _ & -> & _ & Hf)];
    fold w' in Hf; rewrite Hf; [done|].
  destruct (hook_verdict h v b n _) as [| | |new] eqn:Hvd; try done.
  apply hook_verdict_Patched in Hvd as (_ & text & first & rest & -> & _).
  done.
Qed.

(** X9.  The helper creates and removes nothing and changes Python
    hooks only: every path keeps its kind (regular file, directory,
    other, absent), and a path that holds something else after the run
    held a regular file whose first line is a Python shebang line and
    holds a regular file with the same first line. *)
Theorem helper_changes_python_hooks_only (s : Session) (w : world) (p : path) :
  let w' := (activate_virtualenv_in_precommit_hooks h s w).2 in
  is_file (fs w') p = is_file (fs w) p ∧
  is_dir (fs w') p = is_dir (fs w) p ∧
  exists_ (fs w') p = exists_ (fs w) p ∧
  (fs w' !! p ≠ fs w !! p →
     ∃ text text' first rest rest',
       fs w !! p = Some (File text) ∧ fs w' !! p = Some (File text') ∧
       splitlines text = first :: rest ∧ is_python_shebang first = true ∧
       splitlines text' = first :: rest').
Proof.
  intros w'. destruct (helper_keeps_kinds s w p) as (H1 & H2 & H3).
  do 3 (split; [done|]). intros Hp.
  destruct (helper_at_path h s w p) as [[Hf _]|(b & v & n & _ & _ & _ & -> & _ & Hf)];
    fold w' in Hf; [done|].
  destruct (hook_verdict h v b n _) as [| | |new] eqn:Hvd; try done.
  apply hook_verdict_Patched in Hvd
    as (_ & text & first & rest & Ht & _ & Hl & Hsh & ->).
  pose proof (splitlines_linefree text) as Hfree. rewrite Hl in Hfree.
  apply Forall_cons in Hfree as [Hfirst Hrest].
  exists text, (join (str newline) (first :: header v b :: rest)), first, rest,
    (header_lines v b ++ lines_after_header rest).
  do 4 (split; [done|]). rewrite header_explicit. by apply patched_lines.
Qed.

(** X10.  In one run the helper reads a path at most once and writes it
    at most once, and it writes only what it has just read: the steps
    about a path are none, one read, or one read followed by one
    write. *)
Theorem helper_reads_before_it_writes (s : Session) (w : world) (p : path) :
  let w' := (activate_virtualenv_in_precommit_hooks h s w).2 in
  let steps := (filter (about p) (added w w')).*1 in
  steps = [] ∨ steps = [ReadText p] ∨ ∃ t, steps = [ReadText p; WroteText p t].
Proof.
  intros w' steps. subst steps.
  destruct (helper_at_path h s w p) as [[_ He]|(b & v & n & _ & _ & _ & -> & He & _)];
    fold w' in He; rewrite He; [by left|].
  destruct (hook_verdict h v b n _); cbn; eauto.
Qed.

End HelperMore.

Section HelperFailure.
Import Examples.
Variable h : host.

Lemma for_each_ok_no_crash (v b : string) (names : list string) :
  NoDup names → ∀ w,
  (for_each names (patch_hook h v b) w).1 = Ok tt →
  ∀ n, n ∈ names → hook_verdict h v b n (fs w !! child hookdir n) ≠ Crashed.
Proof.
  induction 1 as [|x rest Hx Hrest IH]; intros w Hok n Hn.
  { by apply elem_of_nil in Hn. }
  cbn [for_each] in Hok. unfold bind at 1 in Hok. rewrite patch_hook_eq in Hok.
  destruct (hook_verdict h v b x (fs w !! child hookdir x)) eqn:Hvd;
    cbn [verdict_outcome verdict_fs] in Hok; try discriminate Hok.
  all: apply elem_of_cons in Hn as [->|Hn]; [by rewrite Hvd|].
  all: pose proof (IH _ Hok n Hn) as Hn'; cbn [fs] in Hn'; try done.
  rewrite lookup_insert_ne in Hn'; [done|].
  intros Heq. apply child_inj in Heq. by subst.
Qed.

Lemma activate_loop (s : Session) (w : world) (b v : string) :
  bin s = Some b → env s !! "VIRTUAL_ENV" = Some v →
  is_dir (fs w) hookdir = true →
  activate_virtualenv_in_precommit_hooks h s w
    = for_each (iterdir (fs w) hookdir) (patch_hook h v b) w.
Proof.
  intros Hb Hv Hd. unfold activate_virtualenv_in_precommit_hooks.
  rewrite Hb, Hv. unfold bind at 1, get_fs. by rewrite Hd.
Qed.

(** X11.  The helper raises [IndexError] only when the bin directory
    is the empty text, the other two guards pass, and [.git/hooks] has a
    regular file that is empty and whose name does not end with
    [.sample]; and when all of that holds, it does not return. *)
Theorem index_error_needs_empty_bin_and_hook (s : Session) (w : world) :
  let r := (activate_virtualenv_in_precommit_hooks h s w).1 in
  let empty_hook :=
    bin s = Some "" ∧ is_Some (env s !! "VIRTUAL_ENV") ∧
    is_dir (fs w) hookdir = true ∧
    ∃ name, endswith name ".sample" = false ∧
            fs w !! child hookdir name = Some (File "") in
  (r = Raised IndexError → empty_hook) ∧ (empty_hook → r ≠ Ok tt).
Proof.
  intros r empty_hook. subst r empty_hook. split.
  - intros Hraise.
    destruct (activate_run h s w) as [[_ Hrun]|(b & v & r & f' & d & Hb & Hv & Hd &
      Hrun & Hcase & _)]; rewrite Hrun in Hraise; [done|].
    cbn [fst] in Hraise. subst r.
    destruct Hcase as [?|(_ & n & Hc)]; [done|].
    assert (endswith n ".sample" = false) as Hs.
    { unfold hook_verdict in Hc. by destruct (endswith n ".sample"). }
    apply hook_verdict_Crashed in Hc as (text & Hf & Hm & Hl).
    assert (text = "") as ->.
    { destruct text as [|c tl]; [done|].
      by destruct (splitlines_nonempty (String c tl)). }
    assert (b = "") as ->.
    { destruct b as [|c b]; [done|].
      by destruct (mentions_has_line h (String c b) "" ltac:(done) Hm). }
    split; [done|]. split; [by rewrite Hv|]. split; [done|]. by exists n.
  - intros (Hb & [v Hv] & Hd & name & Hs & Hf) Hok.
    rewrite (activate_loop s w "" v Hb Hv Hd) in Hok.
    apply (for_each_ok_no_crash v "" _ (NoDup_iterdir _ _) w Hok name).
    + apply elem_of_iterdir. by rewrite Hf.
    + unfold hook_verdict. rewrite Hs, Hf.
      assert (hook_mentions h (slice_1_m1 (repr "")) "" = true) as ->; [|done].
      unfold hook_mentions. apply orb_true_r.
Qed.

(** X12.  Patching is not idempotent.  A patched hook passes every
    guard again (its first line is kept, and the header names the bin
    directory), so a second run of the helper writes the hook once more,
    with a second header in front of the first. *)
Theorem second_run_patches_again (s : Session) (w : world)
    (b v name text first : string) (rest : list string) :
  bin s = Some b → env s !! "VIRTUAL_ENV" = Some v →
  is_dir (fs w) hookdir = true →
  endswith name ".sample" = false →
  fs w !! child hookdir name = Some (File text) →
  hook_mentions h (slice_1_m1 (repr b)) text = true →
  splitlines text = first :: rest →
  is_python_shebang first = true →
  (activate_virtualenv_in_precommit_hooks h s w).1 = Ok tt →
  let w1 := (activate_virtualenv_in_precommit_hooks h s w).2 in
  (activate_virtualenv_in_precommit_hooks h s w1).1 = Ok tt →
  let w2 := (activate_virtualenv_in_precommit_hooks h s w1).2 in
  let twice :=
    join (str newline)
      (first :: header_text v b :: header_lines v b ++ lines_after_header rest) in
  (filter (about (child hookdir name)) (added w1 w2)).*1
    = [ReadText (child hookdir name); WroteText (child hookdir name) twice] ∧
  fs w2 !! child hookdir name = Some (File twice).
Proof.
  intros Hb Hv Hd Hs Hf Hm Hl Hsh Hok w1 Hok1 w2 twice.
  destruct (helper_patches h s w b v name text first rest) as [_ Hn]; try done.
  fold w1 in Hn. rewrite header_explicit in Hn.
  pose proof (splitlines_linefree text) as Hfree. rewrite Hl in Hfree.
  apply Forall_cons in Hfree as [Hfirst Hrest].
  destruct (helper_patches h s w1 b v name
              (join (str newline) (first :: header_text v b :: rest)) first
              (header_lines v b ++ lines_after_header rest)
              Hb Hv) as [He2 Hn2]; try done.
  - destruct (helper_keeps_kinds h s w hookdir) as (_ & Hk & _).
    fold w1 in Hk. by rewrite Hk.
  - unfold hook_mentions. apply orb_true_iff. right.
    change (join (str newline) (first :: header_text v b :: rest))
      with (first +:+ str newline +:+ join (str newline) (header_text v b :: rest)).
    do 2 apply contains_app_r. destruct rest as [|r rs].
    + apply contains_bindir_header.
    + change (join (str newline) (header_text v b :: r :: rs))
        with (header_text v b +:+ str newline +:+ join (str newline) (r :: rs)).
      apply contains_app_l, contains_bindir_header.
  - by apply patched_lines.
  - fold w2 in He2, Hn2. rewrite header_explicit in He2, Hn2. done.
Qed.

End HelperFailure.

(* ===================================================================== *)
(** * More on the documentation sessions and on mypy *)
(* ===================================================================== *)

Section DocsMore.
Import Examples.
Variable h : host.

(** X13.  When [docs/_build] is a directory after the packages are
    installed, both documentation sessions remove it and run their first
    documentation command in a filesystem that has nothing at or below
    [docs/_build] and is otherwise as the installs left it. *)
Theorem docs_clear_the_build_tree (s : Session) (f : filesystem) :
  let i1 := tool h (Install ["."]) f in
  let b2 := tool h (Install ["sphinx"; "sphinx-rtd-theme"]) i1.1 in
  let d2 := tool h (Install ["sphinx"; "sphinx-autobuild"; "sphinx-rtd-theme"]) i1.1 in
  i1.2 = true →
  (∀ g q, remove_tree g build_dir !! q
          = if decide (build_dir `prefix_of` q) then None else g !! q) ∧
  (b2.2 = true → b2.1 !! build_dir = Some Dir →
     log (docs_build h s (start f)).2 !! 2 = Some (RemovedTree build_dir, b2.1) ∧
     log (docs_build h s (start f)).2 !! 3
       = Some (Called (Run apidoc_command), remove_tree b2.1 build_dir)) ∧
  (d2.2 = true → d2.1 !! build_dir = Some Dir →
     log (docs h s (start f)).2 !! 2 = Some (RemovedTree build_dir, d2.1) ∧
     ∃ args, log (docs h s (start f)).2 !! 3
       = Some (Called (Run ("sphinx-autobuild" :: args)), remove_tree d2.1 build_dir)).
Proof.
  intros i1 b2 d2 H1. split; [intros g q; apply lookup_remove_tree|]. split.
  - intros H2 Hd.
    assert (∃ post, log (docs_build h s (start f)).2
              = [(Called (Install ["."]), f);
                 (Called (Install ["sphinx"; "sphinx-rtd-theme"]), i1.1);
                 (RemovedTree build_dir, b2.1);
                 (Called (Run apidoc_command), remove_tree b2.1 build_dir)] ++ post)
      as [post ->]; [|done].
    unfold docs_build, session_install, session_run. fold apidoc_command.
    rewrite bind_call; cbn [fs log start app]. fold i1. rewrite H1.
    rewrite bind_call; cbn [fs log app]. fold b2. rewrite H2.
    unfold bind at 1. rewrite clean_build_dir_eq; cbn [fs log app]. rewrite Hd.
    rewrite bind_call; cbn [fs log app].
    destruct (tool h (Run apidoc_command) (remove_tree b2.1 build_dir)).2.
    + rewrite call_eq. by eexists [_].
    + by exists [].
  - intros H2 Hd.
    assert (∃ args, log (docs h s (start f)).2
              = [(Called (Install ["."]), f);
                 (Called (Install ["sphinx"; "sphinx-autobuild"; "sphinx-rtd-theme"]),
                  i1.1);
                 (RemovedTree build_dir, d2.1);
                 (Called (Run ("sphinx-autobuild" :: args)),
                  remove_tree d2.1 build_dir)])
      as [args ->]; [|split; [done|by exists args]].
    unfold docs, session_install, session_run.
    rewrite bind_call; cbn [fs log start app]. fold i1. rewrite H1.
    rewrite bind_call; cbn [fs log app]. fold d2. rewrite H2.
    unfold bind at 1. rewrite clean_build_dir_eq; cbn [fs log app]. rewrite Hd.
    rewrite call_eq. by eexists.
Qed.

(** X14.  When something that is no directory stands at [docs/_build]
    after the packages are installed, both documentation sessions raise
    [OSError] from [shutil.rmtree], run no documentation command and
    leave the filesystem as the installs left it. *)
Theorem docs_fail_on_a_file_at_build_dir (s : Session) (f : filesystem) (nd : node) :
  let i1 := tool h (Install ["."]) f in
  let b2 := tool h (Install ["sphinx"; "sphinx-rtd-theme"]) i1.1 in
  let d2 := tool h (Install ["sphinx"; "sphinx-autobuild"; "sphinx-rtd-theme"]) i1.1 in
  i1.2 = true → nd ≠ Dir →
  (b2.2 = true → b2.1 !! build_dir = Some nd →
     (docs_build h s (start f)).1 = Raised OSError ∧
     commands_run (log (docs_build h s (start f)).2) = [] ∧
     fs (docs_build h s (start f)).2 = b2.1) ∧
  (d2.2 = true → d2.1 !! build_dir = Some nd →
     (docs h s (start f)).1 = Raised OSError ∧
     commands_run (log (docs h s (start f)).2) = [] ∧
     fs (docs h s (start f)).2 = d2.1).
Proof.
  intros i1 b2 d2 H1 Hnd. split.
  - intros H2 Hd.
    assert (docs_build h s (start f)
            = (Raised OSError,
               World b2.1
                 [(Called (Install ["."]), f);
                  (Called (Install ["sphinx"; "sphinx-rtd-theme"]), i1.1);
                  (RemovedTree build_dir, b2.1)])) as ->; [|done].
    unfold docs_build, session_install, session_run.
    rewrite bind_call; cbn [fs log start app]. fold i1. rewrite H1.
    rewrite bind_call; cbn [fs log app]. fold b2. rewrite H2.
    unfold bind at 1. rewrite clean_build_dir_eq; cbn [fs log app]. rewrite Hd.
    by destruct nd.
  - intros H2 Hd.
    assert (docs h s (start f)
            = (Raised OSError,
               World d2.1
                 [(Called (Install ["."]), f);
                  (Called (Install ["sphinx"; "sphinx-autobuild"; "sphinx-rtd-theme"]),
                   i1.1);
                  (RemovedTree build_dir, d2.1)])) as ->; [|done].
    unfold docs, session_install, session_run.
    rewrite bind_call; cbn [fs log start app]. fold i1. rewrite H1.
    rewrite bind_call; cbn [fs log app]. fold d2. rewrite H2.
    unfold bind at 1. rewrite clean_build_dir_eq; cbn [fs log app]. rewrite Hd.
    by destruct nd.
Qed.

(** X15.  Once its packages are installed and its first run of mypy
    succeeded, the mypy session checks [noxfile.py] with the interpreter
    that runs nox exactly when it was given no arguments; given
    arguments, it runs mypy once, with them. *)
Theorem mypy_checks_the_noxfile (sys_executable : string) (s : Session) (f : filesystem) :
  let i1 := tool h (Install ["."]) f in
  let i2 := tool h (Install ["mypy"; "pytest"; "pytest-mock"]) i1.1 in
  let args := or_default (posargs s)
                ["--explicit-package-bases"; "src/haapi/games"; "tests"; "docs/conf.py"] in
  let r := tool h (Run ("mypy" :: args)) i2.1 in
  i1.2 = true → i2.2 = true → r.2 = true →
  commands_run (log (mypy h sys_executable s (start f)).2)
    = match posargs s with
      | [] => [ ["mypy"; "--explicit-package-bases"; "src/haapi/games"; "tests";
                 "docs/conf.py"];
                ["mypy"; "--python-executable=" +:+ sys_executable; "noxfile.py"] ]
      | _ => ["mypy" :: posargs s]
      end.
Proof.
  intros i1 i2 args r H1 H2 Hr. unfold mypy, session_install, session_run.
  fold args.
  rewrite bind_call; cbn [fs log start app]. fold i1. rewrite H1.
  rewrite bind_call; cbn [fs log app]. fold i2. rewrite H2.
  rewrite bind_call; cbn [fs log app]. fold r. rewrite Hr.
  subst args. destruct (posargs s) as [|a0 rest]; cbn [truthy negb or_default].
  - rewrite call_eq. done.
  - done.
Qed.

End DocsMore.

(* ===================================================================== *)
(** * Further properties on concrete runs *)
(* ===================================================================== *)

Section MoreRuns.
Import Examples.

Lemma patched_hook_lines_witness :
  splitlines patched_hook_text
    = "#!/usr/bin/env python3" :: header_lines "/v" "/v/bin" ++
      [""; "INSTALL_PYTHON = '/v/bin/python'"; "main()"].
Proof.
  apply (patched_hook_lines hook_text "#!/usr/bin/env python3"
           ["INSTALL_PYTHON = '/v/bin/python'"; "main()"] "/v" "/v/bin").
  vm_compute. reflexivity.
Defined.

Lemma plain_bin_directory_sought_as_is_witness :
  slice_1_m1 (repr "/v/bin") = "/v/bin" ∧
  hook_mentions posix_host (slice_1_m1 (repr "/v/bin")) hook_text
    = contains "/v/bin" hook_text.
Proof.
  destruct (plain_bin_directory_sought_as_is posix_host "/v/bin" hook_text)
    as [H1 H2]; [vm_compute; reflexivity|].
  split; [exact H1|]. apply H2. reflexivity.
Defined.

(** A Windows path has backslashes: the text looked for has each of them
    twice, as a Python string literal in the hook has. *)
Example backslashes_are_doubled :
  slice_1_m1 (repr "C:\venv\Scripts") = "C:\\venv\\Scripts".
Proof. vm_compute. reflexivity. Qed.

Lemma helper_changes_python_hooks_only_witness :
  fs (activate_virtualenv_in_precommit_hooks posix_host install_session
        (start repo)).2 !! pre_commit_hook
    ≠ fs (start repo) !! pre_commit_hook ∧
  ∃ text text' first rest rest',
    fs (start repo) !! pre_commit_hook = Some (File text) ∧
    fs (activate_virtualenv_in_precommit_hooks posix_host install_session
          (start repo)).2 !! pre_commit_hook = Some (File text') ∧
    splitlines text = first :: rest ∧ is_python_shebang first = true ∧
    splitlines text' = first :: rest'.
Proof.
  assert (fs (activate_virtualenv_in_precommit_hooks posix_host install_session
                (start repo)).2 !! pre_commit_hook
          ≠ fs (start repo) !! pre_commit_hook) as Hne.
  { vm_compute. intros H. discriminate H. }
  split; [exact Hne|].
  exact (proj2 (proj2 (proj2
           (helper_changes_python_hooks_only posix_host install_session
              (start repo) pre_commit_hook))) Hne).
Defined.

Lemma index_error_needs_empty_bin_and_hook_witness :
  (activate_virtualenv_in_precommit_hooks posix_host empty_bin_session
     (start empty_hook_repo)).1 ≠ Ok tt.
Proof.
  apply (proj2 (index_error_needs_empty_bin_and_hook posix_host empty_bin_session
                  (start empty_hook_repo))).
  split; [reflexivity|]. split; [by exists "/v"|]. split; [vm_compute; reflexivity|].
  exists "pre-commit". split; vm_compute; reflexivity.
Defined.

Lemma second_run_patches_again_witness :
  fs (activate_virtualenv_in_precommit_hooks posix_host install_session
        (activate_virtualenv_in_precommit_hooks posix_host install_session
           (start repo)).2).2 !! pre_commit_hook
    = Some (File twice_patched_hook_text).
Proof.
  refine (proj2 (second_run_patches_again posix_host install_session (start repo)
                   "/v/bin" "/v" "pre-commit" hook_text "#!/usr/bin/env python3"
                   ["INSTALL_PYTHON = '/v/bin/python'"; "main()"]
                   _ _ _ _ _ _ _ _ _ _));
    vm_compute; reflexivity.
Defined.

Lemma docs_clear_the_build_tree_witness :
  log (docs_build posix_host plain_session (start repo)).2 !! 3
    = Some (Called (Run apidoc_command), remove_tree repo build_dir) ∧
  remove_tree repo build_dir !! ["docs"; "_build"; "index.html"] = None ∧
  remove_tree repo build_dir !! pre_commit_hook = Some (File hook_text).
Proof.
  destruct (docs_clear_the_build_tree posix_host plain_session repo eq_refl)
    as (Hrm & Hb & _).
  split; [|split].
  - apply Hb; vm_compute; reflexivity.
  - rewrite Hrm. vm_compute. reflexivity.
  - rewrite Hrm. vm_compute. reflexivity.
Defined.

Lemma docs_fail_on_a_file_at_build_dir_witness :
  (docs_build posix_host plain_session (start blocked_repo)).1 = Raised OSError ∧
  (docs posix_host plain_session (start blocked_repo)).1 = Raised OSError.
Proof.
  destruct (docs_fail_on_a_file_at_build_dir posix_host plain_session blocked_repo
              (File "not a directory") eq_refl ltac:(discriminate)) as [Hb Hd].
  split.
  - apply Hb; vm_compute; reflexivity.
  - apply Hd; vm_compute; reflexivity.
Defined.

Lemma mypy_checks_the_noxfile_witness :
  commands_run (log (mypy posix_host "/usr/bin/python3" plain_session (start ∅)).2)
    = [ ["mypy"; "--explicit-package-bases"; "src/haapi/games"; "tests";
         "docs/conf.py"];
        ["mypy"; "--python-executable=/usr/bin/python3"; "noxfile.py"] ] ∧
  commands_run (log (mypy posix_host "/usr/bin/python3" install_session (start ∅)).2)
    = [ ["mypy"; "install"] ].
Proof.
  split.
  - apply (mypy_checks_the_noxfile posix_host "/usr/bin/python3" plain_session ∅);
      reflexivity.
  - apply (mypy_checks_the_noxfile posix_host "/usr/bin/python3" install_session ∅);
      reflexivity.
Defined.

(** The mypy session on a host whose commands fail: one command, no
    second run. *)
Example mypy_stops_after_a_failed_run :
  (log (mypy failing_host "/usr/bin/python3" plain_session (start ∅)).2).*1
    = [Called (Install ["."]);
       Called (Install ["mypy"; "pytest"; "pytest-mock"]);
       Called (Run ["mypy"; "--explicit-package-bases"; "src/haapi/games"; "tests";
                    "docs/conf.py"])].
Proof. vm_compute. reflexivity. Qed.

End MoreRuns.
